(** * The tool registry of the agent framework ([src/tools/tool_registry.py])

    A shallow embedding of [ToolRegistry]: registration, rule-based selection
    ([needs_tool], [select_tool]), execution with validation and failure
    capture ([execute_tool], [execute_if_needed]) and the introspection
    methods ([list_tools], [get_usage_stats]), followed by the properties the
    specification states about them.

    Conventions of the embedding.
    - A Python [str] is a [string]; each character stands for the code point
      of the same number, so the model covers text over U+0000..U+00FF.
    - A Python [dict] whose iteration order is observed ([self.tools],
      [by_tool]) is an insertion-ordered association list with unique keys;
      the parameter mapping, of which the registry only asks membership, is a
      [gmap].
    - A Python [int] is a [Z].
    - A call that may raise yields a [result]; the methods that append to the
      usage log thread the registry through a small state-and-exception
      monad [M].
    - A handler is a total function from the parameter mapping to a
      [result]: it returns a value or raises, and touches neither the
      registry nor its argument. A handler that does not terminate is
      outside the model.
    - An exception carries what [str(e)] does at each of the two places
      where [execute_tool] evaluates it: return the message, or raise. *)

From stdpp Require Import base option list strings gmap.
From Stdlib Require Import Ascii ZArith Lia.

Local Open Scope Z_scope.
Set Warnings "-register-all,-clear-no-such-hyp".

(** * Part I. Python strings and dictionaries *)


(** ** Python strings *)

Module PyStr.

Definition ord (c : ascii) : N := Ascii.N_of_ascii c.
Definition chr (n : N) : ascii := Ascii.ascii_of_N n.

(** [str.lower()] on one code point below U+0100: the ASCII capitals and
    the Latin-1 capitals U+00C0..U+00DE (U+00D7, the multiplication sign,
    has no case) move up by 32; everything else is left alone. *)
Definition lower_char (c : ascii) : ascii :=
  let n := ord c in
  if ((65 <=? n) && (n <=? 90))%N
     || ((192 <=? n) && (n <=? 222) && negb (n =? 215))%N
  then chr (n + 32) else c.

Fixpoint lower (s : string) : string :=
  match s with
  | EmptyString => EmptyString
  | String c s' => String (lower_char c) (lower s')
  end.

(** [s.startswith(p)] *)
Fixpoint startswith (p s : string) : bool :=
  match p, s with
  | EmptyString, _ => true
  | String _ _, EmptyString => false
  | String a p', String b s' => bool_decide (a = b) && startswith p' s'
  end.

(** [sub in s]: [sub] occurs in [s] at some offset. *)
Fixpoint contains (sub s : string) : bool :=
  startswith sub s ||
  match s with
  | EmptyString => false
  | String _ s' => contains sub s'
  end.

(** What [sub in s] means: [s] is [sub] with something before and after. *)
Definition substring_of (sub s : string) : Prop :=
  ∃ before after, s = before +:+ sub +:+ after.

(** [", ".join(l)] and friends. *)
Fixpoint join (sep : string) (l : list string) : string :=
  match l with
  | [] => ""
  | [x] => x
  | x :: rest => x +:+ sep +:+ join sep rest
  end.

Definition hex_digit (n : N) : ascii :=
  if (n <? 10)%N then chr (48 + n) else chr (87 + n).

(** [str.isprintable()] on one code point below U+0100: the controls
    U+0000..U+001F and U+007F..U+009F, the no-break space U+00A0 and the
    soft hyphen U+00AD are not printable. *)
Definition isprintable_char (c : ascii) : bool :=
  let n := ord c in
  ((32 <=? n) && (n <? 127) || (161 <=? n) && negb (n =? 173))%N.

(** One character of [repr(s)] inside the quotes [q]. *)
Definition repr_char (q c : ascii) : string :=
  let n := ord c in
  if bool_decide (c = q) || (n =? 92)%N then String (chr 92) (String c "")
  else if (n =? 9)%N then "\t"
  else if (n =? 10)%N then "\n"
  else if (n =? 13)%N then "\r"
  else if isprintable_char c then String c ""
  else "\x" +:+ String (hex_digit (n / 16)) (String (hex_digit (n mod 16)) "").

Fixpoint repr_body (q : ascii) (s : string) : string :=
  match s with
  | EmptyString => ""
  | String c s' => repr_char q c +:+ repr_body q s'
  end.

Fixpoint has_char (c : ascii) (s : string) : bool :=
  match s with
  | EmptyString => false
  | String c' s' => bool_decide (c = c') || has_char c s'
  end.

(** [repr(s)] for a [str]: single quotes, unless the text has a single
    quote and no double quote. *)
Definition repr (s : string) : string :=
  let q := if has_char (chr 39) s && negb (has_char (chr 34) s)
           then chr 34 else chr 39 in
  String q (repr_body q s) +:+ String q "".

(** [repr(l)] for a [list] of [str], which is also [str(l)] and what an
    f-string prints for it. *)
Definition repr_list (l : list string) : string :=
  "[" +:+ join ", " (repr <$> l) +:+ "]".

End PyStr.

(** ** Facts about strings *)

Module PyStrFacts.
Import PyStr.

Lemma app_cons (x : ascii) (a b : string) :
  String x a +:+ b = String x (a +:+ b).
Proof. reflexivity. Qed.

Lemma app_assoc (a b c : string) : (a +:+ b) +:+ c = a +:+ b +:+ c.
Proof.
  induction a as [|x a IH]; [done|]. by rewrite !app_cons, IH.
Qed.

Lemma app_empty_r (a : string) : a +:+ "" = a.
Proof. induction a as [|x a IH]; [done|]. by rewrite app_cons, IH. Qed.

Lemma lower_empty : lower "" = "".
Proof. reflexivity. Qed.

Lemma startswith_spec (p s : string) :
  startswith p s = true ↔ ∃ rest, s = p +:+ rest.
Proof.
  revert s. induction p as [|a p IH]; intros s; simpl.
  - split; [intros _; by exists s | done].
  - destruct s as [|b s].
    + split; [done | intros [rest Hrest]; discriminate Hrest].
    + rewrite andb_true_iff, bool_decide_eq_true, IH. split.
      * intros [-> [rest ->]]. by exists rest.
      * intros [rest Hrest]. injection Hrest as -> ->. eauto.
Qed.

(** The test [sub in s] decides that [sub] occurs somewhere in [s]. *)
Lemma contains_spec (sub s : string) :
  contains sub s = true ↔ substring_of sub s.
Proof.
  unfold substring_of. induction s as [|b s IH]; simpl.
  - rewrite orb_false_r, startswith_spec. split.
    + intros [rest Hrest]. by exists "", rest.
    + intros [[|x before] [after Heq]]; [by exists after | discriminate Heq].
  - rewrite orb_true_iff, startswith_spec, IH. split.
    + intros [[rest Hrest] | (before & after & ->)].
      * by exists "", rest.
      * by exists (String b before), after.
    + intros [[|x before] [after Heq]].
      * left. by exists after.
      * right. injection Heq as -> ->. by exists before, after.
Qed.

Lemma contains_empty (s : string) : contains "" s = true.
Proof. destruct s; reflexivity. Qed.

Global Instance substring_of_dec sub s : Decision (substring_of sub s).
Proof.
  refine (cast_if (decide (contains sub s = true)));
    by rewrite <- contains_spec.
Defined.

Lemma substring_of_app (before sub after : string) :
  substring_of sub (before +:+ sub +:+ after).
Proof. by exists before, after. Qed.

Lemma substring_of_app_l (pre sub s : string) :
  substring_of sub s → substring_of sub (pre +:+ s).
Proof.
  intros (before & after & ->). exists (pre +:+ before), after.
  by rewrite app_assoc.
Qed.

Lemma substring_of_app_r (sub s post : string) :
  substring_of sub s → substring_of sub (s +:+ post).
Proof.
  intros (before & after & ->). exists before, (after +:+ post).
  by rewrite !app_assoc.
Qed.

Lemma substring_of_refl (s : string) : substring_of s s.
Proof. exists "", "". simpl. by rewrite app_empty_r. Qed.

(** Every element of a joined list occurs in the result. *)
Lemma substring_of_join (sep x : string) (l : list string) :
  x ∈ l → substring_of x (join sep l).
Proof.
  induction l as [|y l IH]; [by intros ?%elem_of_nil|].
  intros [->|Hin]%elem_of_cons.
  - destruct l as [|z l]; simpl; [apply substring_of_refl|].
    by exists "", (sep +:+ join sep (z :: l)).
  - destruct l as [|z l]; [by apply elem_of_nil in Hin|].
    change (join sep (y :: z :: l)) with (y +:+ sep +:+ join sep (z :: l)).
    by apply substring_of_app_l, substring_of_app_l, IH.
Qed.

(** The printed list shows the [repr] of each of its elements. *)
Lemma substring_of_repr_list (x : string) (l : list string) :
  x ∈ l → substring_of (repr x) (repr_list l).
Proof.
  intros Hin. unfold repr_list.
  apply substring_of_app_l, substring_of_app_r, substring_of_join.
  by apply list_elem_of_fmap_2.
Qed.

End PyStrFacts.

(** ** Python dictionaries with observable order *)

Module PyDict.
Section dict.
Context {V : Type}.

Definition t : Type := list (string * V).

Definition empty : t := [].

(** [d.get(k)] *)
Fixpoint get (k : string) (d : t) : option V :=
  match d with
  | [] => None
  | (k', v) :: d' => if decide (k' = k) then Some v else get k d'
  end.

(** [k in d] *)
Definition contains (k : string) (d : t) : bool :=
  match get k d with Some _ => true | None => false end.

(** [d[k] = v]: an existing key keeps its place, a new key goes last. *)
Fixpoint setitem (k : string) (v : V) (d : t) : t :=
  match d with
  | [] => [(k, v)]
  | (k', v') :: d' =>
      if decide (k' = k) then (k', v) :: d' else (k', v') :: setitem k v d'
  end.

(** [d[k] = f(d[k])], the effect of an in-place update such as
    [d[k]['n'] += 1]; Python raises [KeyError] when [k] is absent, a case
    the callers below exclude by inserting the key first. *)
Fixpoint adjust (f : V → V) (k : string) (d : t) : t :=
  match d with
  | [] => []
  | (k', v) :: d' =>
      if decide (k' = k) then (k', f v) :: d' else (k', v) :: adjust f k d'
  end.

Definition items (d : t) : list (string * V) := d.
Definition keys (d : t) : list string := d.*1.
Definition values (d : t) : list V := d.*2.

(** The invariant of every dictionary built from [empty] by [setitem]. *)
Definition wf (d : t) : Prop := NoDup (keys d).

End dict.
Arguments t : clear implicits.
End PyDict.

(** ** Facts about ordered dictionaries *)

Module PyDictFacts.
Section facts.
Context {V : Type}.
Implicit Types (d : PyDict.t V) (k : string) (v : V).

Lemma get_elem_of k v d : PyDict.get k d = Some v → (k, v) ∈ PyDict.items d.
Proof.
  unfold PyDict.items. induction d as [|[k' v'] d IH]; simpl; [done|].
  case_decide as Hk.
  - intros [= ->]. subst k'. apply elem_of_cons; by left.
  - intros Hget. apply elem_of_cons; right; auto.
Qed.

Lemma get_None k d : PyDict.get k d = None ↔ k ∉ PyDict.keys d.
Proof.
  unfold PyDict.keys. induction d as [|[k' v'] d IH]; simpl.
  - split; [intros _ []%elem_of_nil | done].
  - rewrite not_elem_of_cons. case_decide as Hk.
    + split; [done | by intros [? _]].
    + rewrite IH. split; [by intros ? | by intros [_ ?]].
Qed.

Lemma get_is_Some k d : is_Some (PyDict.get k d) ↔ k ∈ PyDict.keys d.
Proof.
  rewrite <- not_eq_None_Some, get_None.
  split; [apply dec_stable | auto].
Qed.

Lemma contains_get k d :
  PyDict.contains k d = true ↔ is_Some (PyDict.get k d).
Proof.
  unfold PyDict.contains. destruct (PyDict.get k d); split;
    [eauto | done | done | by intros [? ?]].
Qed.

Lemma get_setitem k k' v d :
  PyDict.get k' (PyDict.setitem k v d)
  = if decide (k = k') then Some v else PyDict.get k' d.
Proof.
  induction d as [|[k0 v0] d IH]; simpl.
  - by repeat case_decide.
  - destruct (decide (k0 = k)) as [->|Hne]; simpl.
    + by repeat case_decide; simplify_eq.
    + rewrite IH. by repeat case_decide; simplify_eq.
Qed.

Lemma get_adjust (f : V → V) k k' d :
  PyDict.get k' (PyDict.adjust f k d)
  = if decide (k = k') then f <$> PyDict.get k d else PyDict.get k' d.
Proof.
  induction d as [|[k0 v0] d IH]; simpl.
  - by case_decide.
  - destruct (decide (k0 = k)) as [->|Hne]; simpl.
    + by repeat case_decide; simplify_eq.
    + rewrite IH. by repeat case_decide; simplify_eq.
Qed.

(** Assignment keeps the order of the keys and adds a new key last. *)
Lemma keys_setitem k v d :
  PyDict.keys (PyDict.setitem k v d)
  = if PyDict.contains k d then PyDict.keys d else PyDict.keys d ++ [k].
Proof.
  unfold PyDict.keys, PyDict.contains.
  induction d as [|[k0 v0] d IH]; [done|].
  cbn [PyDict.setitem PyDict.get].
  case_decide as Hk; [done|].
  rewrite !fmap_cons, IH. by destruct (PyDict.get k d).
Qed.

Lemma elem_of_keys_setitem x k v d :
  x ∈ PyDict.keys (PyDict.setitem k v d) ↔ x = k ∨ x ∈ PyDict.keys d.
Proof.
  rewrite keys_setitem.
  destruct (PyDict.contains k d) eqn:Hc.
  - apply contains_get, get_is_Some in Hc. naive_solver.
  - rewrite elem_of_app, list_elem_of_singleton. naive_solver.
Qed.

Lemma wf_empty : PyDict.wf (@PyDict.empty V).
Proof. apply NoDup_nil_2. Qed.

Lemma wf_setitem k v d : PyDict.wf d → PyDict.wf (PyDict.setitem k v d).
Proof.
  unfold PyDict.wf. intros Hwf. rewrite keys_setitem.
  destruct (PyDict.contains k d) eqn:Hc; [done|].
  apply NoDup_app. split_and!; [done | | apply NoDup_singleton].
  intros x Hx ->%list_elem_of_singleton.
  apply get_is_Some, contains_get in Hx. congruence.
Qed.

Lemma length_values d : length (PyDict.values d) = length (PyDict.keys d).
Proof. unfold PyDict.values, PyDict.keys. by rewrite !length_fmap. Qed.

End facts.
End PyDictFacts.

(** * Part II. The embedding of [tool_registry.py] *)

(** ** Values, exceptions and the data model *)

(** The Python values that parameters and handler outputs are made of. [None]
    is a value like any other: a handler may return it. *)
Inductive PyVal : Type :=
  | PyNone
  | PyBool (b : bool)
  | PyInt (z : Z)
  | PyString (s : string)
  | PyList (l : list PyVal)
  | PyMapping (d : list (string * PyVal)).

(** A raised exception: its class, whether that class derives from
    [Exception] (the builtins [SystemExit], [KeyboardInterrupt] and
    [GeneratorExit] derive from [BaseException] only), and what [str(e)]
    does the first and the second time it is evaluated: each time it
    returns a message or, when the class has a [__str__] that fails, raises
    an exception of its own. ([execute_tool] evaluates [str(e)] twice.) *)
Inductive PyExc : Type :=
  | mkExc (class_name : string) (is_Exception : bool)
          (str str_again : StrOutcome)
with StrOutcome : Type :=
  | StrReturns (message : string)
  | StrRaises (e : PyExc).

Definition exc_class (e : PyExc) : string :=
  match e with mkExc class_name _ _ _ => class_name end.
Definition exc_is_Exception (e : PyExc) : bool :=
  match e with mkExc _ is_Exception _ _ => is_Exception end.
Definition exc_str (e : PyExc) : StrOutcome :=
  match e with mkExc _ _ str _ => str end.
Definition exc_str_again (e : PyExc) : StrOutcome :=
  match e with mkExc _ _ _ str_again => str_again end.

(** An exception of the usual kind: [str(e)] is its message, every time. *)
Definition exception (class_name : string) (is_Exception : bool)
    (message : string) : PyExc :=
  mkExc class_name is_Exception (StrReturns message) (StrReturns message).

Definition ValueError (msg : string) : PyExc := exception "ValueError" true msg.
Definition TypeError (msg : string) : PyExc := exception "TypeError" true msg.
Definition KeyError (key : string) : PyExc :=
  exception "KeyError" true (PyStr.repr key).
Definition KeyboardInterrupt : PyExc := exception "KeyboardInterrupt" false "".
Definition SystemExit (code : string) : PyExc :=
  exception "SystemExit" false code.

(** The outcome of a call: a returned value or a raised exception. *)
Inductive result (A : Type) : Type :=
  | Returns (a : A)
  | Raises (e : PyExc).
Arguments Returns {A} a.
Arguments Raises {A} e.

Global Instance result_fmap : FMap result := λ A B f r,
  match r with
  | Returns a => Returns (f a)
  | Raises e => Raises e
  end.

(** [str(e)] for an exception [e], at its first and at its second
    evaluation. *)
Definition str_outcome (o : StrOutcome) : result string :=
  match o with
  | StrReturns message => Returns message
  | StrRaises e' => Raises e'
  end.
Definition py_str (e : PyExc) : result string := str_outcome (exc_str e).
Definition py_str_again (e : PyExc) : result string :=
  str_outcome (exc_str_again e).

(** [class ToolType(Enum)] and the [.value] of its members. *)
Inductive ToolType : Type :=
  WEB | FILE | DATA | CALCULATION | COMMUNICATION | SYSTEM.

Global Instance ToolType_eq_dec : EqDecision ToolType.
Proof. solve_decision. Defined.

Definition ToolType_value (ty : ToolType) : string :=
  match ty with
  | WEB => "web"
  | FILE => "file"
  | DATA => "data"
  | CALCULATION => "calculation"
  | COMMUNICATION => "communication"
  | SYSTEM => "system"
  end.

(** The parameter mapping of a call. *)
Abbreviation Params := (gmap string PyVal).

(** [@dataclass class Tool] *)
Record Tool : Type := mkTool {
  name : string;
  type : ToolType;
  description : string;
  handler : Params → result PyVal;
  keywords : list string;
  required_params : list string
}.

(** The generated constructor followed by [__post_init__]:
    [required_params] defaults to [None], which becomes the empty list. *)
Definition Tool_init (name : string) (type : ToolType) (description : string)
    (handler : Params → result PyVal) (keywords : list string)
    (required_params : option (list string)) : Tool :=
  mkTool name type description handler keywords
         (match required_params with None => [] | Some ps => ps end).

(** [class ToolResult]: [output] is any value and defaults to [None];
    [error] is a [str] or [None]. *)
Record ToolResult : Type := mkToolResult {
  tool_name : string;
  success : bool;
  output : PyVal;
  error : option string
}.

(** One entry of [tool_usage_log]: the dictionary
    [{'tool': .., 'params': .., 'success': ..}], with an ['error'] key in
    the failure case only. *)
Record UsageRecord : Type := mkUsage {
  log_tool : string;
  log_params : Params;
  log_success : bool;
  log_error : option string
}.

(** [class ToolRegistry] *)
Record ToolRegistry : Type := mkRegistry {
  tools : PyDict.t Tool;
  tool_usage_log : list UsageRecord
}.

(** [ToolRegistry.__init__] *)
Definition ToolRegistry_init : ToolRegistry := mkRegistry PyDict.empty [].

(** ** Methods that read or rebuild the registry *)

(** [register]: [self.tools[tool.name] = tool; return self]. *)
Definition register (self : ToolRegistry) (tool : Tool) : ToolRegistry :=
  mkRegistry (PyDict.setitem (name tool) tool (tools self))
             (tool_usage_log self).

(** The literal [action_patterns] of [needs_tool]. *)
Definition action_patterns : PyDict.t (list string) :=
  [ ("web", ["fetch"; "download"; "scrape"; "get url"; "http"; "api call"]);
    ("file", ["read file"; "write file"; "save to"; "load from"; "open file"]);
    ("data", ["parse"; "transform"; "filter"; "aggregate"; "sort"]);
    ("calculation", ["calculate"; "compute"; "sum"; "average"; "count"]);
    ("communication", ["send email"; "notify"; "message"; "alert"]);
    ("system", ["execute"; "run command"; "shell"; "process"]) ].

(** [for keyword in tool.keywords: if keyword.lower() in task_lower: ..] *)
Fixpoint keyword_loop (task_lower : string) (kws : list string) : bool :=
  match kws with
  | [] => false
  | keyword :: rest =>
      if PyStr.contains (PyStr.lower keyword) task_lower then true
      else keyword_loop task_lower rest
  end.

(** Rule 1, the loop over [self.tools.items()] with its early return. *)
Fixpoint keyword_rule (task_lower : string) (its : list (string * Tool))
  : option string :=
  match its with
  | [] => None
  | (tool_name, tool) :: rest =>
      if keyword_loop task_lower (keywords tool) then Some tool_name
      else keyword_rule task_lower rest
  end.

(** [for pattern in action_patterns[tool_type]: if pattern in task_lower: ..] *)
Fixpoint pattern_loop (task_lower : string) (pats : list string) : bool :=
  match pats with
  | [] => false
  | pattern :: rest =>
      if PyStr.contains pattern task_lower then true
      else pattern_loop task_lower rest
  end.

(** Rule 2, the second loop over [self.tools.items()]. *)
Fixpoint pattern_rule (task_lower : string) (its : list (string * Tool))
  : option string :=
  match its with
  | [] => None
  | (tool_name, tool) :: rest =>
      let tool_type := ToolType_value (type tool) in
      match PyDict.get tool_type action_patterns with
      | Some pats =>
          if pattern_loop task_lower pats then Some tool_name
          else pattern_rule task_lower rest
      | None => pattern_rule task_lower rest
      end
  end.

(** [needs_tool]: the pair [(needs_tool, tool_name)]. *)
Definition needs_tool (self : ToolRegistry) (task_description : string)
  : bool * option string :=
  let task_lower := PyStr.lower task_description in
  match keyword_rule task_lower (PyDict.items (tools self)) with
  | Some tool_name => (true, Some tool_name)
  | None =>
      match pattern_rule task_lower (PyDict.items (tools self)) with
      | Some tool_name => (true, Some tool_name)
      | None => (false, None)
      end
  end.

(** Truth value of an [Optional[str]]: [None] and the empty string are
    false. *)
Definition truthy (s : option string) : bool :=
  match s with
  | None => false
  | Some s => negb (bool_decide (s = ""))
  end.

(** [select_tool]: [if needs_tool and tool_name: return self.tools.get(..)]. *)
Definition select_tool (self : ToolRegistry) (task_description : string)
  : option Tool :=
  let '(needs, tool_name) := needs_tool self task_description in
  if needs && truthy tool_name then
    match tool_name with
    | Some n => PyDict.get n (tools self)
    | None => None
    end
  else None.

(** [list_tools] *)
Definition list_tools (self : ToolRegistry) (tool_type : option ToolType)
  : list Tool :=
  match tool_type with
  | None => PyDict.values (tools self)
  | Some ty => filter (λ t, type t = ty) (PyDict.values (tools self))
  end.

(** ** The state-and-exception monad of the methods that log *)

(** A method body runs on the registry [self] and yields a returned value or
    a raised exception, together with the registry as it is afterwards. *)
Definition M (A : Type) : Type := ToolRegistry → result A * ToolRegistry.

Global Instance M_ret : MRet M := λ A a self, (Returns a, self).

Global Instance M_bind : MBind M := λ A B k m self,
  match m self with
  | (Returns a, self') => k a self'
  | (Raises e, self') => (Raises e, self')
  end.

(** Read [self]. *)
Definition get_self : M ToolRegistry := λ self, (Returns self, self).

(** Evaluate an expression that touches no state but may raise. *)
Definition call {A} (r : result A) : M A := λ self, (r, self).

(** [self.tool_usage_log.append(entry)] *)
Definition log_append (entry : UsageRecord) : M unit := λ self,
  (Returns (), mkRegistry (tools self) (tool_usage_log self ++ [entry])).

(** [try: body except Exception as e: on_error(e)]: only instances of
    [Exception] are caught, anything else keeps propagating. *)
Definition try_except_Exception {A} (body : M A) (on_error : PyExc → M A)
  : M A := λ self,
  match body self with
  | (Returns a, self') => (Returns a, self')
  | (Raises e, self') =>
      if exc_is_Exception e then on_error e self' else (Raises e, self')
  end.

(** [d[k]], which raises [KeyError] on a missing key. *)
Definition getitem {V} (k : string) (d : PyDict.t V) : result V :=
  match PyDict.get k d with
  | Some v => Returns v
  | None => Raises (KeyError k)
  end.

(** [[p for p in tool.required_params if p not in params]] *)
Definition missing_params_of (tool : Tool) (params : Params) : list string :=
  filter (λ p, params !! p = None) (required_params tool).

(** [execute_tool]. In the [except] block [str(e)] is evaluated twice, for
    the log entry before it is appended and for the result after it; either
    evaluation may raise, and nothing catches that. *)
Definition execute_tool (tool_name : string) (params : Params)
  : M ToolResult :=
  self ← get_self;
  if negb (PyDict.contains tool_name (tools self)) then
    mret (mkToolResult tool_name false PyNone
            (Some ("Tool '" +:+ tool_name +:+ "' not found")))
  else
    tool ← call (getitem tool_name (tools self));
    let missing_params := missing_params_of tool params in
    match missing_params with
    | _ :: _ =>
        mret (mkToolResult tool_name false PyNone
                (Some ("Missing required parameters: "
                       +:+ PyStr.repr_list missing_params)))
    | [] =>
        try_except_Exception
          (output ← call (handler tool params);
           _ ← log_append (mkUsage tool_name params true None);
           mret (mkToolResult tool_name true output None))
          (λ e,
           logged ← call (py_str e);
           _ ← log_append (mkUsage tool_name params false (Some logged));
           reported ← call (py_str_again e);
           mret (mkToolResult tool_name false PyNone (Some reported)))
    end.

(** [execute_if_needed]: [None] when no tool is selected. *)
Definition execute_if_needed (task_description : string) (params : Params)
  : M (option ToolResult) :=
  self ← get_self;
  match select_tool self task_description with
  | None => mret None
  | Some tool =>
      res ← execute_tool (name tool) params;
      mret (Some res)
  end.

(** ** Usage statistics *)

(** One value of [by_tool]: [{'total': .., 'success': .., 'failure': ..}]. *)
Record Counts : Type := mkCounts {
  c_total : Z;
  c_success : Z;
  c_failure : Z
}.

Module Stats.
(** The dictionary returned by [get_usage_stats]. *)
Record t : Type := mk {
  total : Z;
  success : Z;
  failure : Z;
  by_tool : PyDict.t Counts
}.
End Stats.

(** The builtin [sum] over a sequence of integers. *)
Definition py_sum (l : list Z) : Z := foldl Z.add 0 l.

Definition incr_total (c : Counts) : Counts :=
  mkCounts (c_total c + 1) (c_success c) (c_failure c).
Definition incr_success (c : Counts) : Counts :=
  mkCounts (c_total c) (c_success c + 1) (c_failure c).
Definition incr_failure (c : Counts) : Counts :=
  mkCounts (c_total c) (c_success c) (c_failure c + 1).

(** The body of [for log in self.tool_usage_log] in [get_usage_stats]. *)
Definition by_tool_step (by_tool : PyDict.t Counts) (log : UsageRecord)
  : PyDict.t Counts :=
  let tool := log_tool log in
  let by_tool :=
    if negb (PyDict.contains tool by_tool)
    then PyDict.setitem tool (mkCounts 0 0 0) by_tool else by_tool in
  let by_tool := PyDict.adjust incr_total tool by_tool in
  if log_success log then PyDict.adjust incr_success tool by_tool
  else PyDict.adjust incr_failure tool by_tool.

(** [get_usage_stats] *)
Definition get_usage_stats (self : ToolRegistry) : Stats.t :=
  let total := Z.of_nat (length (tool_usage_log self)) in
  if total =? 0 then Stats.mk 0 0 0 PyDict.empty
  else
    let success_count :=
      py_sum ((λ _, 1) <$> filter (λ log, log_success log = true)
                                  (tool_usage_log self)) in
    let by_tool := foldl by_tool_step PyDict.empty (tool_usage_log self) in
    Stats.mk total success_count (total - success_count) by_tool.

(** * Part III. Vocabulary of the specification and sample registries *)

(** ** Registration *)

(** The registry obtained from a fresh one by registering [ts] in order,
    as the chained calls [ToolRegistry().register(t1).register(t2)...] do. *)
Definition registry_of (ts : list Tool) : ToolRegistry :=
  foldl register ToolRegistry_init ts.

(** ** Selection *)

(** The two rules as the specification words them: the first registered
    tool, in insertion order, that has a keyword whose lower-cased form
    occurs in the lower-cased description; failing that, the first tool
    whose category has a pattern occurring in it. *)

(** The category-to-pattern table as a function of the category. *)
Definition category_patterns (ty : ToolType) : list string :=
  default [] (PyDict.get (ToolType_value ty) action_patterns).

Definition keyword_rule_fires (task_lower : string) (it : string * Tool)
  : Prop :=
  Exists (λ keyword, PyStr.substring_of (PyStr.lower keyword) task_lower)
         (keywords it.2).

Definition category_rule_fires (task_lower : string) (it : string * Tool)
  : Prop :=
  Exists (λ pattern, PyStr.substring_of pattern task_lower)
         (category_patterns (type it.2)).

Global Instance keyword_rule_fires_dec task_lower it :
  Decision (keyword_rule_fires task_lower it).
Proof. unfold keyword_rule_fires. apply _. Defined.

Global Instance category_rule_fires_dec task_lower it :
  Decision (category_rule_fires task_lower it).
Proof. unfold category_rule_fires. apply _. Defined.

(** The key of the first item, in order, that satisfies [P]. *)
Definition first_match (P : string * Tool → Prop) `{∀ it, Decision (P it)}
    (its : list (string * Tool)) : option string :=
  (λ hit : nat * (string * Tool), hit.2.1) <$> list_find P its.

Definition needs_tool_spec (self : ToolRegistry) (task_description : string)
  : bool * option string :=
  let task_lower := PyStr.lower task_description in
  match first_match (keyword_rule_fires task_lower)
                    (PyDict.items (tools self)) with
  | Some tool_name => (true, Some tool_name)
  | None =>
      match first_match (category_rule_fires task_lower)
                        (PyDict.items (tools self)) with
      | Some tool_name => (true, Some tool_name)
      | None => (false, None)
      end
  end.

(** ** Execution *)

(** The handler call that [execute_tool] makes, when it gets that far: the
    name is registered and no required parameter is missing. *)
Definition invocation (self : ToolRegistry) (tool_name : string)
    (params : Params) : option (result PyVal) :=
  match PyDict.get tool_name (tools self) with
  | Some tool =>
      match missing_params_of tool params with
      | [] => Some (handler tool params)
      | _ :: _ => None
      end
  | None => None
  end.

(** The call reaches the handler-invocation stage. *)
Definition reaches_handler (self : ToolRegistry) (tool_name : string)
    (params : Params) : Prop :=
  is_Some (invocation self tool_name params).

(** The message of an exception, when the first [str(e)] returns one. *)
Definition exc_message (e : PyExc) : option string :=
  match exc_str e with
  | StrReturns message => Some message
  | StrRaises _ => None
  end.

(** An outcome that [execute_tool] records in the usage log: a returned
    value, or an instance of [Exception] whose first [str(e)] returns. *)
Definition logged (r : result PyVal) : bool :=
  match r with
  | Returns _ => true
  | Raises e =>
      exc_is_Exception e
      && match exc_message e with Some _ => true | None => false end
  end.

(** An outcome that the [try] statement of [execute_tool] turns into a
    [ToolResult]: a returned value, or an instance of [Exception] both of
    whose [str(e)] return. *)
Definition absorbed (r : result PyVal) : bool :=
  logged r
  && match r with
     | Returns _ => true
     | Raises e =>
         match exc_str_again e with
         | StrReturns _ => true
         | StrRaises _ => false
         end
     end.

(** The log entry that a logged outcome leaves. *)
Definition usage_entry (tool_name : string) (params : Params)
    (r : result PyVal) : UsageRecord :=
  match r with
  | Returns _ => mkUsage tool_name params true None
  | Raises e => mkUsage tool_name params false (exc_message e)
  end.

(** What one call of [execute_tool] appends to the log. *)
Definition appended (self : ToolRegistry) (tool_name : string)
    (params : Params) : list UsageRecord :=
  match invocation self tool_name params with
  | Some r => if logged r then [usage_entry tool_name params r] else []
  | None => []
  end.

(** The same tool with another handler, and the registry in which the tool
    registered under [tool_name] has its handler replaced. *)
Definition with_handler (h : Params → result PyVal) (tool : Tool) : Tool :=
  mkTool (name tool) (type tool) (description tool) h
         (keywords tool) (required_params tool).

Definition replace_handler (self : ToolRegistry) (tool_name : string)
    (h : Params → result PyVal) : ToolRegistry :=
  mkRegistry (PyDict.adjust (with_handler h) tool_name (tools self))
             (tool_usage_log self).

(** ** Statistics *)

(** The sum of one counter over all the tools of [by_tool]. *)
Definition tally (f : Counts → Z) (by_tool : PyDict.t Counts) : Z :=
  py_sum (f <$> PyDict.values by_tool).

(** What one log record adds to the success and failure counters. *)
Definition one_success (log : UsageRecord) : Z :=
  if log_success log then 1 else 0.
Definition one_failure (log : UsageRecord) : Z :=
  if log_success log then 0 else 1.

(** ** Sample registries

    The tool descriptors of the module's [__main__] block, with handlers
    that return a fixed value or raise a fixed exception, and a few
    registries for the corner cases. *)

Definition const_handler (v : PyVal) : Params → result PyVal :=
  λ _, Returns v.
Definition raising_handler (e : PyExc) : Params → result PyVal :=
  λ _, Raises e.

Definition web_fetch : Tool :=
  Tool_init "web_fetch" WEB "Fetch content from a URL"
    (const_handler (PyMapping [("status", PyInt 200); ("size", PyInt 1024)]))
    ["fetch"; "download"; "url"; "http"; "api"] (Some ["url"]).

Definition file_reader : Tool :=
  Tool_init "file_reader" FILE "Read content from a file"
    (const_handler (PyMapping [("lines", PyInt 42)]))
    ["read file"; "open file"; "load file"] (Some ["filepath"]).

(** The calculator on an expression that does not evaluate. *)
Definition calculator : Tool :=
  Tool_init "calculator" CALCULATION "Perform calculations"
    (raising_handler (ValueError "Invalid expression: 1 +"))
    ["calculate"; "compute"; "math"] (Some ["expression"]).

Definition data_transformer : Tool :=
  Tool_init "data_transformer" DATA "Transform data"
    (const_handler (PyMapping [("result", PyList [])]))
    ["transform"; "filter"; "map"; "process data"] (Some ["data"; "operation"]).

Definition main_registry : ToolRegistry :=
  registry_of [web_fetch; file_reader; calculator; data_transformer].

Definition calculator_params : Params := {[ "expression" := PyString "1 +" ]}.

(** A handler that ends the process, as one calling [sys.exit(1)] does. *)
Definition shutdown_tool : Tool :=
  Tool_init "shutdown" SYSTEM "Stop the process"
    (raising_handler (SystemExit "1")) ["shutdown"] None.
Definition shutdown_registry : ToolRegistry := registry_of [shutdown_tool].

(** A handler that raises an [Exception] instance whose [__str__] fails
    with a [TypeError]. *)
Definition unprintable_error : PyExc :=
  mkExc "UnprintableError" true
        (StrRaises (TypeError "__str__ returned non-string (type NoneType)"))
        (StrRaises (TypeError "__str__ returned non-string (type NoneType)")).
Definition unprintable_tool : Tool :=
  Tool_init "unprintable" DATA "Fail without a message"
    (raising_handler unprintable_error) ["unprintable"] None.
Definition unprintable_registry : ToolRegistry :=
  registry_of [calculator; unprintable_tool; shutdown_tool].

(** A handler that returns nothing. *)
Definition notifier : Tool :=
  Tool_init "notifier" COMMUNICATION "Send a notification"
    (const_handler PyNone) ["notify"] None.
Definition notifier_registry : ToolRegistry := registry_of [notifier].

(** A catch-all tool whose keyword list holds the empty string, registered
    last of three. *)
Definition fallback_tool : Tool :=
  Tool_init "fallback" SYSTEM "Handle anything" (const_handler PyNone)
            ["misc"; ""] None.
Definition fallback_registry : ToolRegistry :=
  registry_of [file_reader; calculator; fallback_tool].

(** A tool registered under the empty name. *)
Definition anonymous_tool : Tool :=
  Tool_init "" DATA "A tool registered under the empty name"
            (const_handler (PyInt 1)) ["ping"] None.
Definition anonymous_registry : ToolRegistry := registry_of [anonymous_tool].

(** * Part IV. Properties *)

(** ** Registration *)

Lemma registry_of_snoc (ts : list Tool) (tool : Tool) :
  registry_of (ts ++ [tool]) = register (registry_of ts) tool.
Proof. apply foldl_snoc. Qed.

Lemma setitem_Forall {V} (P : string * V → Prop) (k : string) (v : V)
    (d : PyDict.t V) :
  Forall P d → P (k, v) → Forall P (PyDict.setitem k v d).
Proof.
  intros Hd Hkv. induction Hd as [|[k' v'] d Hhd Htl IH]; simpl.
  - by constructor.
  - case_decide as Hk; [subst k'|]; by constructor.
Qed.

(** Every key of a registry built by [register] is the name of its tool. *)
Lemma registry_of_keyed_by_name (ts : list Tool) :
  Forall (λ it : string * Tool, name it.2 = it.1) (tools (registry_of ts)).
Proof.
  induction ts as [|tool ts IH] using rev_ind; [by constructor|].
  rewrite registry_of_snoc. by apply setitem_Forall.
Qed.

Lemma registry_of_wf (ts : list Tool) : PyDict.wf (tools (registry_of ts)).
Proof.
  induction ts as [|tool ts IH] using rev_ind; [apply PyDictFacts.wf_empty|].
  rewrite registry_of_snoc. by apply PyDictFacts.wf_setitem.
Qed.

Lemma registry_of_keys (ts : list Tool) (n : string) :
  n ∈ PyDict.keys (tools (registry_of ts)) ↔ n ∈ name <$> ts.
Proof.
  induction ts as [|tool ts IH] using rev_ind; [done|].
  rewrite registry_of_snoc. unfold register; simpl.
  rewrite PyDictFacts.elem_of_keys_setitem, fmap_app, elem_of_app, IH.
  simpl. rewrite list_elem_of_singleton. tauto.
Qed.

(** The descriptor found under a name is the last one registered with it. *)
Lemma registry_of_get (ts : list Tool) (n : string) :
  PyDict.get n (tools (registry_of ts)) = last (filter (λ t, name t = n) ts).
Proof.
  induction ts as [|tool ts IH] using rev_ind; [done|].
  rewrite registry_of_snoc. unfold register; simpl.
  rewrite PyDictFacts.get_setitem, filter_app.
  case_decide as Hn.
  - rewrite filter_cons_True by done. by rewrite filter_nil, last_snoc.
  - rewrite filter_cons_False by done. by rewrite filter_nil, app_nil_r.
Qed.

(** C7: [register] puts the descriptor under its name, replacing any
    descriptor registered under that name before and touching no other
    entry nor the usage log, and hands back the updated registry, so calls
    chain. Hence, after any sequence of registrations on a fresh registry,
    the keys are pairwise distinct, every tool sits under its own name, a
    name leads to the last descriptor registered with it, and [list_tools()]
    has as many entries as there are distinct names among the registered
    descriptors. *)
Theorem register_last_write_wins (self : ToolRegistry) (tool : Tool)
    (ts : list Tool) :
  PyDict.get (name tool) (tools (register self tool)) = Some tool
  ∧ (∀ k, k ≠ name tool →
          PyDict.get k (tools (register self tool)) = PyDict.get k (tools self))
  ∧ tool_usage_log (register self tool) = tool_usage_log self
  ∧ register (registry_of ts) tool = registry_of (ts ++ [tool])
  ∧ NoDup (name <$> list_tools (registry_of ts) None)
  ∧ (∀ n, PyDict.get n (tools (registry_of ts))
          = last (filter (λ t, name t = n) ts))
  ∧ length (list_tools (registry_of ts) None)
    = length (remove_dups (name <$> ts)).
Proof.
  split_and!.
  - unfold register; simpl. rewrite PyDictFacts.get_setitem.
    by rewrite decide_True.
  - intros k Hk. unfold register; simpl. rewrite PyDictFacts.get_setitem.
    by rewrite decide_False.
  - done.
  - by rewrite registry_of_snoc.
  - assert (Hkeys : name <$> list_tools (registry_of ts) None
                    = PyDict.keys (tools (registry_of ts))).
    { unfold list_tools, PyDict.values, PyDict.keys.
      rewrite <- list_fmap_compose. apply Forall_fmap_ext_1.
      apply registry_of_keyed_by_name. }
    rewrite Hkeys. apply registry_of_wf.
  - apply registry_of_get.
  - unfold list_tools. rewrite PyDictFacts.length_values.
    apply Permutation_length, NoDup_Permutation.
    + apply registry_of_wf.
    + apply NoDup_remove_dups.
    + intros n. by rewrite registry_of_keys, elem_of_remove_dups.
Qed.

(** ** Selection *)

Lemma keyword_loop_spec (task_lower : string) (kws : list string) :
  keyword_loop task_lower kws = true
  ↔ Exists (λ keyword, PyStr.substring_of (PyStr.lower keyword) task_lower)
           kws.
Proof.
  induction kws as [|kw kws IH]; simpl.
  - split; [done | by intros ?%Exists_nil].
  - rewrite Exists_cons, <- IH, <- PyStrFacts.contains_spec.
    destruct (PyStr.contains (PyStr.lower kw) task_lower); intuition congruence.
Qed.

Lemma pattern_loop_spec (task_lower : string) (pats : list string) :
  pattern_loop task_lower pats = true
  ↔ Exists (λ pattern, PyStr.substring_of pattern task_lower) pats.
Proof.
  induction pats as [|pat pats IH]; simpl.
  - split; [done | by intros ?%Exists_nil].
  - rewrite Exists_cons, <- IH, <- PyStrFacts.contains_spec.
    destruct (PyStr.contains pat task_lower); intuition congruence.
Qed.

Lemma first_match_cons (P : string * Tool → Prop) `{∀ it, Decision (P it)}
    (it : string * Tool) (its : list (string * Tool)) :
  first_match P (it :: its)
  = if decide (P it) then Some it.1 else first_match P its.
Proof.
  unfold first_match. simpl. case_decide; [done|].
  by destruct (list_find P its) as [[i hit]|].
Qed.

Lemma keyword_rule_first_match (task_lower : string)
    (its : list (string * Tool)) :
  keyword_rule task_lower its = first_match (keyword_rule_fires task_lower) its.
Proof.
  induction its as [|[n tool] its IH]; [done|].
  rewrite first_match_cons. simpl. rewrite IH.
  destruct (keyword_loop task_lower (keywords tool)) eqn:Hloop.
  - rewrite decide_True; [done|]. by apply keyword_loop_spec.
  - rewrite decide_False; [done|].
    intros Hfires%keyword_loop_spec. simpl in Hfires. congruence.
Qed.

(** Every category has an entry in [action_patterns], so the [in] test of
    the second loop never skips a tool. *)
Lemma action_patterns_total (ty : ToolType) :
  PyDict.get (ToolType_value ty) action_patterns
  = Some (category_patterns ty).
Proof. by destruct ty. Qed.

Lemma pattern_rule_first_match (task_lower : string)
    (its : list (string * Tool)) :
  pattern_rule task_lower its
  = first_match (category_rule_fires task_lower) its.
Proof.
  induction its as [|[n tool] its IH]; [done|].
  rewrite first_match_cons.
  cbn [pattern_rule]. rewrite action_patterns_total, IH.
  destruct (pattern_loop task_lower (category_patterns (type tool)))
    eqn:Hloop.
  - rewrite decide_True; [done|]. by apply pattern_loop_spec.
  - rewrite decide_False; [done|].
    intros Hfires%pattern_loop_spec. simpl in Hfires. congruence.
Qed.

(** C2: [needs_tool] is the two-tier first-match decision. The keyword
    rule selects the first registered tool, in insertion order, one of
    whose keywords, lower-cased, is a substring of the lower-cased
    description; only when no keyword matches, the category rule selects
    the first tool whose category has a pattern contained in the lowered
    description; when neither fires the result is [(false, None)]. *)
Theorem needs_tool_two_tier_first_match (self : ToolRegistry)
    (task_description : string) :
  needs_tool self task_description = needs_tool_spec self task_description.
Proof.
  unfold needs_tool, needs_tool_spec.
  by rewrite keyword_rule_first_match, pattern_rule_first_match.
Qed.

(** The same equation, for use in the proofs below. *)
Lemma needs_tool_unfold (self : ToolRegistry) (task_description : string) :
  needs_tool self task_description
  = match first_match (keyword_rule_fires (PyStr.lower task_description))
                      (PyDict.items (tools self)) with
    | Some tool_name => (true, Some tool_name)
    | None =>
        match first_match (category_rule_fires (PyStr.lower task_description))
                          (PyDict.items (tools self)) with
        | Some tool_name => (true, Some tool_name)
        | None => (false, None)
        end
    end.
Proof.
  unfold needs_tool.
  by rewrite keyword_rule_first_match, pattern_rule_first_match.
Qed.

(** What [first_match] means: the selected key is that of the earliest item
    satisfying [P], and nothing is selected only when no item does. *)
Lemma first_match_Some (P : string * Tool → Prop) `{∀ it, Decision (P it)}
    (its : list (string * Tool)) (n : string) :
  first_match P its = Some n
  ↔ ∃ (i : nat) (tool : Tool),
      its !! i = Some (n, tool) ∧ P (n, tool)
      ∧ ∀ (j : nat) (it : string * Tool),
          its !! j = Some it → (j < i)%nat → ¬ P it.
Proof.
  unfold first_match. rewrite fmap_Some. split.
  - intros ([i [n' tool]] & Hfind & ->). simpl.
    apply list_find_Some in Hfind. eauto.
  - intros (i & tool & Hi). exists (i, (n, tool)).
    split; [by apply list_find_Some | done].
Qed.

Lemma first_match_None (P : string * Tool → Prop) `{∀ it, Decision (P it)}
    (its : list (string * Tool)) :
  first_match P its = None ↔ Forall (λ it, ¬ P it) its.
Proof. unfold first_match. by rewrite fmap_None, list_find_None. Qed.

Lemma first_match_key (P : string * Tool → Prop) `{∀ it, Decision (P it)}
    (its : list (string * Tool)) (n : string) :
  first_match P its = Some n → n ∈ its.*1.
Proof.
  intros (i & tool & Hi & _)%first_match_Some.
  apply list_elem_of_lookup_2 in Hi.
  by apply (list_elem_of_fmap_2 fst) in Hi.
Qed.

(** The verdicts of [needs_tool]: no tool, or a registered name. *)
Lemma needs_tool_cases (self : ToolRegistry) (task_description : string) :
  needs_tool self task_description = (false, None)
  ∨ ∃ n tool, needs_tool self task_description = (true, Some n)
              ∧ PyDict.get n (tools self) = Some tool.
Proof.
  rewrite needs_tool_unfold.
  destruct (first_match (keyword_rule_fires _) _) as [n|] eqn:Hkw.
  - right. apply first_match_key, PyDictFacts.get_is_Some in Hkw as [tool ?].
    eauto.
  - destruct (first_match (category_rule_fires _) _) as [n|] eqn:Hcat.
    + right.
      apply first_match_key, PyDictFacts.get_is_Some in Hcat as [tool ?].
      eauto.
    + by left.
Qed.

(** C9: when some registered tool has the empty string among its keywords,
    [needs_tool] answers [(true, name)], for a registered [name], on every
    task description, the empty one included: no task is reported as
    needing no tool. *)
Theorem empty_keyword_always_fires (self : ToolRegistry) :
  Exists (λ it : string * Tool, "" ∈ keywords it.2)
         (PyDict.items (tools self)) →
  ∀ task_description,
    ∃ n, needs_tool self task_description = (true, Some n)
         ∧ is_Some (PyDict.get n (tools self)).
Proof.
  intros Hex task_description.
  destruct (needs_tool_cases self task_description)
    as [Hnone | (n & tool & Hn & Hget)]; [|eauto].
  exfalso. rewrite needs_tool_unfold in Hnone.
  destruct (first_match (keyword_rule_fires _) _) as [n|] eqn:Hkw; [done|].
  apply first_match_None in Hkw. rewrite Forall_forall in Hkw.
  apply Exists_exists in Hex as (it & Hit & Hempty).
  apply (Hkw it Hit). apply Exists_exists. exists "". split; [done|].
  apply PyStrFacts.contains_spec, PyStrFacts.contains_empty.
Qed.

Lemma empty_keyword_always_fires_witness :
  Exists (λ it : string * Tool, "" ∈ keywords it.2)
         (PyDict.items (tools fallback_registry))
  ∧ ∃ n, needs_tool fallback_registry "" = (true, Some n)
         ∧ is_Some (PyDict.get n (tools fallback_registry)).
Proof.
  assert (Hex : Exists (λ it : string * Tool, "" ∈ keywords it.2)
                       (PyDict.items (tools fallback_registry))).
  { do 2 apply Exists_cons_tl. apply Exists_cons_hd. simpl.
    apply list_elem_of_further, list_elem_of_here. }
  split; [exact Hex|].
  exact (empty_keyword_always_fires fallback_registry Hex "").
Defined.

(** ** [select_tool] against [needs_tool] *)

(** For a selected name other than the empty string the lookup of
    [select_tool] succeeds and yields the registered descriptor. *)
Lemma select_tool_named (self : ToolRegistry) (task_description n : string) :
  needs_tool self task_description = (true, Some n) →
  n ≠ "" →
  ∃ tool, PyDict.get n (tools self) = Some tool
          ∧ select_tool self task_description = Some tool.
Proof.
  intros Hneeds Hn.
  destruct (needs_tool_cases self task_description)
    as [Hnone | (n' & tool & Hn' & Hget)]; [congruence|].
  assert (n' = n) as -> by congruence.
  exists tool. split; [done|].
  unfold select_tool. rewrite Hneeds. simpl.
  by rewrite bool_decide_eq_false_2.
Qed.

Lemma select_tool_no_tool (self : ToolRegistry) (task_description : string) :
  needs_tool self task_description = (false, None) →
  select_tool self task_description = None.
Proof. intros Hneeds. unfold select_tool. by rewrite Hneeds. Qed.

(** In a registry without the empty name, [select_tool] returns [None]
    exactly when [needs_tool] reports that no tool is needed. *)
Lemma select_tool_None_iff (self : ToolRegistry) (task_description : string) :
  "" ∉ PyDict.keys (tools self) →
  select_tool self task_description = None
  ↔ needs_tool self task_description = (false, None).
Proof.
  intros Hkeys. split; [|apply select_tool_no_tool].
  intros Hsel.
  destruct (needs_tool_cases self task_description)
    as [Hnone | (n & tool & Hn & Hget)]; [done|].
  destruct (select_tool_named self task_description n Hn)
    as (tool' & _ & Hsel'); [|congruence].
  intros ->. apply Hkeys, PyDictFacts.get_is_Some. eauto.
Qed.

(** C10, the selected name is registered: whenever [needs_tool] returns
    [(true, name)], [name] is a key of the tool mapping. The rest of C10
    fails on the code at the empty name, where the truth test
    [needs_tool and tool_name] of [select_tool] takes the selected name for
    no name: in [anonymous_registry] the task ["ping"] selects the tool
    registered under the empty name, yet [select_tool] returns [None] and
    [execute_if_needed] executes nothing. *)
Theorem select_tool_misses_empty_name :
  (∀ self task_description n,
     needs_tool self task_description = (true, Some n) →
     is_Some (PyDict.get n (tools self)))
  ∧ needs_tool anonymous_registry "ping" = (true, Some "")
  ∧ PyDict.get "" (tools anonymous_registry) = Some anonymous_tool
  ∧ select_tool anonymous_registry "ping" = None
  ∧ execute_if_needed "ping" ∅ anonymous_registry
    = (Returns None, anonymous_registry).
Proof.
  split_and!; [|reflexivity..].
  intros self task_description n Hneeds.
  destruct (needs_tool_cases self task_description)
    as [Hnone | (n' & tool & Hn' & Hget)]; [congruence|].
  assert (n' = n) as -> by congruence. eauto.
Qed.

(** ** Execution: what [execute_tool] does, case by case *)

Lemma execute_tool_eq (tool_name : string) (params : Params)
    (self : ToolRegistry) :
  execute_tool tool_name params self =
  match PyDict.get tool_name (tools self) with
  | None =>
      (Returns (mkToolResult tool_name false PyNone
                  (Some ("Tool '" +:+ tool_name +:+ "' not found"))), self)
  | Some tool =>
      match missing_params_of tool params with
      | (_ :: _) as missing =>
          (Returns (mkToolResult tool_name false PyNone
                      (Some ("Missing required parameters: "
                             +:+ PyStr.repr_list missing))), self)
      | [] =>
          match handler tool params with
          | Returns out =>
              (Returns (mkToolResult tool_name true out None),
               mkRegistry (tools self)
                 (tool_usage_log self ++ [mkUsage tool_name params true None]))
          | Raises e =>
              if exc_is_Exception e
              then match py_str e with
                   | Returns message =>
                       let self' :=
                         mkRegistry (tools self)
                           (tool_usage_log self
                            ++ [mkUsage tool_name params false
                                        (Some message)]) in
                       match py_str_again e with
                       | Returns reported =>
                           (Returns (mkToolResult tool_name false PyNone
                                       (Some reported)), self')
                       | Raises e' => (Raises e', self')
                       end
                   | Raises e' => (Raises e', self)
                   end
              else (Raises e, self)
          end
      end
  end.
Proof.
  unfold execute_tool, mbind, M_bind, mret, M_ret, get_self, call, getitem,
    PyDict.contains.
  destruct (PyDict.get tool_name (tools self)) as [tool|]; simpl; [|done].
  destruct (missing_params_of tool params); simpl; [|done].
  unfold try_except_Exception, log_append.
  destruct (handler tool params) as [out|e]; simpl; [done|].
  destruct (exc_is_Exception e); [|done].
  destruct (py_str e); [|done].
  by destruct (py_str_again e).
Qed.

Lemma logged_raise (e : PyExc) :
  logged (Raises e)
  ↔ exc_is_Exception e = true ∧ ∃ message, py_str e = Returns message.
Proof.
  unfold logged, exc_message, py_str.
  destruct (exc_is_Exception e), (exc_str e) as [message|e']; simpl;
    split; try done; try (by intros [? ?]); try (by intros [_ [? ?]]).
  intros _. split; eauto.
Qed.

Lemma absorbed_raise (e : PyExc) :
  absorbed (Raises e)
  ↔ exc_is_Exception e = true
    ∧ (∃ message, py_str e = Returns message)
    ∧ ∃ reported, py_str_again e = Returns reported.
Proof.
  unfold absorbed. rewrite andb_True, logged_raise. unfold py_str_again.
  destruct (exc_str_again e) as [reported|e']; simpl.
  - split; [intros [[? ?] _]; eauto | intros (? & ? & _); eauto].
  - split; [by intros [_ ?] | by intros (_ & _ & [? ?])].
Qed.

Lemma absorbed_logged (r : result PyVal) : absorbed r → logged r.
Proof. unfold absorbed. rewrite andb_True. by intros [? _]. Qed.

Lemma exc_message_py_str (e : PyExc) (message : string) :
  py_str e = Returns message ↔ exc_message e = Some message.
Proof.
  unfold py_str, exc_message.
  destruct (exc_str e); split; intros; simplify_eq/=; done.
Qed.

Lemma execute_if_needed_eq (task_description : string) (params : Params)
    (self : ToolRegistry) :
  execute_if_needed task_description params self =
  match select_tool self task_description with
  | None => (Returns None, self)
  | Some tool =>
      match execute_tool (name tool) params self with
      | (Returns res, self') => (Returns (Some res), self')
      | (Raises e, self') => (Raises e, self')
      end
  end.
Proof.
  unfold execute_if_needed, mbind, M_bind, mret, M_ret, get_self.
  destruct (select_tool self task_description) as [tool|]; [|done].
  by destruct (execute_tool (name tool) params self) as [[res|e] self'].
Qed.

(** A useful reading of [execute_tool_eq]: the outcome in terms of the
    handler call, when there is one. *)
Lemma execute_tool_invocation (self : ToolRegistry) (requested : string)
    (params : Params) (r : result PyVal) :
  invocation self requested params = Some r →
  execute_tool requested params self
  = match r with
    | Returns out =>
        (Returns (mkToolResult requested true out None),
         mkRegistry (tools self)
           (tool_usage_log self ++ [mkUsage requested params true None]))
    | Raises e =>
        if exc_is_Exception e
        then match py_str e with
             | Returns message =>
                 let self' :=
                   mkRegistry (tools self)
                     (tool_usage_log self
                      ++ [mkUsage requested params false (Some message)]) in
                 match py_str_again e with
                 | Returns reported =>
                     (Returns (mkToolResult requested false PyNone
                                 (Some reported)), self')
                 | Raises e' => (Raises e', self')
                 end
             | Raises e' => (Raises e', self)
             end
        else (Raises e, self)
    end.
Proof.
  unfold invocation. rewrite execute_tool_eq.
  destruct (PyDict.get requested (tools self)) as [tool|]; [|done].
  destruct (missing_params_of tool params); [|done].
  by intros [= <-].
Qed.

(** A call whose handler outcome, if it gets to one, is absorbed returns. *)
Lemma execute_tool_returns (self : ToolRegistry) (requested : string)
    (params : Params) :
  (∀ r, invocation self requested params = Some r → absorbed r) →
  ∃ res self', execute_tool requested params self = (Returns res, self').
Proof.
  intros Habs.
  destruct (invocation self requested params) as [r|] eqn:Hinv.
  - rewrite (execute_tool_invocation _ _ _ _ Hinv).
    specialize (Habs r eq_refl). destruct r as [out|e]; [eauto|].
    apply absorbed_raise in Habs as (-> & [message ->] & [reported ->]).
    eauto.
  - unfold invocation in Hinv. rewrite execute_tool_eq.
    destruct (PyDict.get requested (tools self)) as [tool|]; [|eauto].
    destruct (missing_params_of tool params); [done | eauto].
Qed.

(** An exception of the handler that is not an instance of [Exception]
    passes through [execute_tool] and leaves the registry as it was. *)
Lemma execute_tool_propagates (self : ToolRegistry) (requested : string)
    (params : Params) (e : PyExc) :
  invocation self requested params = Some (Raises e) →
  exc_is_Exception e = false →
  execute_tool requested params self = (Raises e, self).
Proof.
  unfold invocation. rewrite execute_tool_eq.
  destruct (PyDict.get requested (tools self)) as [tool|]; [|done].
  destruct (missing_params_of tool params); [|done].
  intros [= ->] ->. done.
Qed.

(** An [Exception] instance whose first [str(e)] raises passes that second
    exception on: it is raised inside the [except] block, before anything
    is appended. *)
Lemma execute_tool_str_raises (self : ToolRegistry) (requested : string)
    (params : Params) (e e' : PyExc) :
  invocation self requested params = Some (Raises e) →
  exc_is_Exception e = true →
  py_str e = Raises e' →
  execute_tool requested params self = (Raises e', self).
Proof.
  intros Hinv He Hstr.
  by rewrite (execute_tool_invocation _ _ _ _ Hinv), He, Hstr.
Qed.

(** When the first [str(e)] returns and the second raises, the failure
    record is already in the log when the call ends with that exception. *)
Lemma execute_tool_second_str_raises (self : ToolRegistry)
    (requested : string) (params : Params) (e e' : PyExc) (message : string) :
  invocation self requested params = Some (Raises e) →
  exc_is_Exception e = true →
  py_str e = Returns message →
  py_str_again e = Raises e' →
  execute_tool requested params self
  = (Raises e',
     mkRegistry (tools self)
       (tool_usage_log self ++ [mkUsage requested params false (Some message)])).
Proof.
  intros Hinv He Hstr Hagain.
  by rewrite (execute_tool_invocation _ _ _ _ Hinv), He, Hstr, Hagain.
Qed.

Lemma execute_tool_shutdown :
  execute_tool "shutdown" ∅ shutdown_registry
  = (Raises (SystemExit "1"), shutdown_registry).
Proof. reflexivity. Qed.

(** C1, as stated, fails: it is not the case that [execute_tool] returns a
    [ToolResult] for every registered tool name and every parameter mapping.
    The handler of [shutdown_tool] raises [SystemExit], which is not an
    instance of [Exception]; the [except Exception] clause lets it through
    and the call raises. *)
Lemma execute_tool_can_raise :
  ¬ (∀ (self : ToolRegistry) (tool_name : string) (params : Params),
       PyDict.contains tool_name (tools self) = true →
       ∃ res self', execute_tool tool_name params self = (Returns res, self')).
Proof.
  intros Hclaim.
  destruct (Hclaim shutdown_registry "shutdown" ∅ eq_refl)
    as (res & self' & Heq).
  rewrite execute_tool_shutdown in Heq. discriminate Heq.
Qed.

(** C1, amended: when the call does not get to the handler, or the handler
    returns, or it raises an instance of [Exception] whose [str(e)]
    returns both times the [except] block evaluates it, [execute_tool]
    returns a [ToolResult] and does not raise; an
    exception raised by the handler is then turned into a failed
    [ToolResult] whose error is the exception's message; and
    [execute_if_needed], when it selects no tool or the tool of that name,
    returns as well, either [None] or the [ToolResult] of [execute_tool]. *)
Theorem execute_tool_absorbs_exceptions (self : ToolRegistry)
    (requested : string) (params : Params) :
  (∀ r, invocation self requested params = Some r → absorbed r) →
  (∃ res self', execute_tool requested params self = (Returns res, self'))
  ∧ (∀ e, invocation self requested params = Some (Raises e) →
       ∃ message self',
         py_str_again e = Returns message
         ∧ execute_tool requested params self
           = (Returns (mkToolResult requested false PyNone (Some message)),
              self'))
  ∧ (∀ task_description,
       select_tool self task_description = None
       ∨ (∃ tool, select_tool self task_description = Some tool
                  ∧ name tool = requested) →
       ∃ res self',
         execute_if_needed task_description params self = (Returns res, self')
         ∧ (res = None
            ∨ ∃ r, execute_tool requested params self = (Returns r, self')
                   ∧ res = Some r)).
Proof.
  intros Habs. split_and!.
  - by apply execute_tool_returns.
  - intros e Hinv. rewrite (execute_tool_invocation _ _ _ _ Hinv).
    apply Habs, absorbed_raise in Hinv as (-> & [logged ->] & [message ->]).
    eauto.
  - intros task_description Hsel. rewrite execute_if_needed_eq.
    destruct Hsel as [-> | (tool & -> & Hname)].
    + exists None, self. auto.
    + rewrite Hname.
      destruct (execute_tool_returns self requested params Habs)
        as (r & self' & Heq).
      rewrite Heq. exists (Some r), self'. split; [done|]. right. eauto.
Qed.

Lemma execute_tool_absorbs_exceptions_witness :
  (∀ r, invocation unprintable_registry "calculator" calculator_params
        = Some r → absorbed r)
  ∧ ∃ self', execute_tool "calculator" calculator_params unprintable_registry
             = (Returns (mkToolResult "calculator" false PyNone
                           (Some "Invalid expression: 1 +")), self').
Proof.
  assert (Habs : ∀ r, invocation unprintable_registry "calculator"
                        calculator_params = Some r → absorbed r).
  { intros r Hinv. vm_compute in Hinv. injection Hinv as <-. exact I. }
  split; [exact Habs|].
  destruct (proj1 (proj2 (execute_tool_absorbs_exceptions
                            unprintable_registry "calculator"
                            calculator_params Habs))
              (ValueError "Invalid expression: 1 +") eq_refl)
    as (message & self' & Hstr & Heq).
  injection Hstr as <-. by exists self'.
Defined.

(** ** The usage log *)

Lemma execute_tool_log (self : ToolRegistry) (tool_name : string)
    (params : Params) :
  (execute_tool tool_name params self).2
  = mkRegistry (tools self)
               (tool_usage_log self ++ appended self tool_name params).
Proof.
  rewrite execute_tool_eq. unfold appended, invocation.
  destruct self as [tls log]; simpl.
  destruct (PyDict.get tool_name tls) as [tool|]; simpl;
    [|by rewrite app_nil_r].
  destruct (missing_params_of tool params); simpl; [|by rewrite app_nil_r].
  destruct (handler tool params) as [out|e]; simpl; [done|].
  unfold py_str, exc_message.
  destruct (exc_is_Exception e); simpl; [|by rewrite app_nil_r].
  destruct (exc_str e); simpl; [|by rewrite app_nil_r].
  by destruct (py_str_again e).
Qed.

(** The call of [unprintable_tool] reaches its handler, which raises an
    instance of [Exception]; [str(e)] then raises in the [except] block and
    the call ends with that [TypeError], the log being as it was. *)
Lemma execute_tool_unprintable :
  reaches_handler unprintable_registry "unprintable" ∅
  ∧ execute_tool "unprintable" ∅ unprintable_registry
    = (Raises (TypeError "__str__ returned non-string (type NoneType)"),
       unprintable_registry).
Proof. split; [by eexists | reflexivity]. Qed.

Lemma shutdown_reaches_handler : reaches_handler shutdown_registry "shutdown" ∅.
Proof. by eexists. Qed.

(** C3, as stated, fails: reaching the handler-invocation stage does not
    always add a record. The call of [shutdown_tool] reaches its handler,
    which raises [SystemExit]; no [except] clause runs and the log stays
    empty. *)
Lemma usage_log_can_stay_unchanged :
  ¬ (∀ (self : ToolRegistry) (tool_name : string) (params : Params),
       length (tool_usage_log (execute_tool tool_name params self).2)
       = S (length (tool_usage_log self))
       ↔ reaches_handler self tool_name params).
Proof.
  intros Hclaim.
  pose proof (proj2 (Hclaim shutdown_registry "shutdown" ∅)
                shutdown_reaches_handler) as Hlen.
  rewrite execute_tool_shutdown in Hlen. discriminate Hlen.
Qed.

(** C3, amended: a call of [execute_tool] leaves the registered tools alone
    and adds exactly one record to the end of the usage log if and only if
    it reaches the handler-invocation stage (name registered, no required
    parameter missing) and the handler's outcome is logged: the handler
    returns, or raises an instance of [Exception] whose [str(e)], taken
    for the record, returns; that record says whether the handler
    succeeded and, if not, carries the message. A call that fails the
    lookup or the required-parameter check leaves the log unchanged. *)
Theorem usage_log_grows_by_one_iff_logged (self : ToolRegistry)
    (tool_name : string) (params : Params) :
  let self' := (execute_tool tool_name params self).2 in
  tools self' = tools self
  ∧ (length (tool_usage_log self') = S (length (tool_usage_log self))
     ↔ ∃ r, invocation self tool_name params = Some r ∧ logged r)
  ∧ (∀ r, invocation self tool_name params = Some r → logged r →
          tool_usage_log self'
          = tool_usage_log self ++ [usage_entry tool_name params r])
  ∧ (¬ reaches_handler self tool_name params →
     tool_usage_log self' = tool_usage_log self).
Proof.
  simpl. rewrite execute_tool_log. simpl. unfold appended, reaches_handler.
  split_and!; [done | | |].
  - rewrite length_app.
    destruct (invocation self tool_name params) as [r|]; simpl.
    + destruct (logged r) eqn:Habs; simpl.
      * split; [intros _; exists r; by rewrite Habs | lia].
      * split; [lia | intros (r' & [= <-] & Hr')]. by rewrite Habs in Hr'.
    + split; [lia | by intros (r' & ? & _)].
  - intros r -> Habs. by destruct (logged r).
  - intros Hnot. destruct (invocation self tool_name params) as [r|].
    + destruct Hnot. by eexists.
    + by rewrite app_nil_r.
Qed.

(** ** Validation of required parameters *)

Lemma elem_of_missing_params (tool : Tool) (params : Params) (p : string) :
  p ∈ missing_params_of tool params
  ↔ p ∈ required_params tool ∧ params !! p = None.
Proof.
  unfold missing_params_of. rewrite list_elem_of_filter. tauto.
Qed.

Lemma execute_tool_missing (self : ToolRegistry) (tool_name : string)
    (tool : Tool) (params : Params) :
  PyDict.get tool_name (tools self) = Some tool →
  missing_params_of tool params ≠ [] →
  execute_tool tool_name params self
  = (Returns (mkToolResult tool_name false PyNone
                (Some ("Missing required parameters: "
                       +:+ PyStr.repr_list (missing_params_of tool params)))),
     self).
Proof.
  intros Hget Hne. rewrite execute_tool_eq, Hget.
  by destruct (missing_params_of tool params).
Qed.

(** C4: when the tool is registered and at least one of its required
    parameter names is not a key of the parameter mapping, [execute_tool]
    returns a failed [ToolResult] whose error message is
    ["Missing required parameters: "] followed by the printed list of the
    missing names, so that each missing name appears in it; the registry is
    left as it was, and the outcome does not depend on the handler: it is
    the same with any other handler in its place, so the handler is not
    invoked. *)
Theorem missing_parameters_rejected (self : ToolRegistry)
    (tool_name : string) (tool : Tool) (params : Params) :
  PyDict.get tool_name (tools self) = Some tool →
  (∃ p, p ∈ required_params tool ∧ params !! p = None) →
  let message := "Missing required parameters: "
                 +:+ PyStr.repr_list (missing_params_of tool params) in
  let failed := mkToolResult tool_name false PyNone (Some message) in
  execute_tool tool_name params self = (Returns failed, self)
  ∧ (∀ p, p ∈ required_params tool → params !! p = None →
          PyStr.substring_of (PyStr.repr p) message)
  ∧ (∀ h, execute_tool tool_name params (replace_handler self tool_name h)
          = (Returns failed, replace_handler self tool_name h)).
Proof.
  intros Hget (p0 & Hreq0 & Habs0). simpl.
  assert (Hne : missing_params_of tool params ≠ []).
  { intros Hnil.
    assert (Hin : p0 ∈ missing_params_of tool params)
      by by apply elem_of_missing_params.
    rewrite Hnil in Hin. by apply elem_of_nil in Hin. }
  split_and!.
  - by apply execute_tool_missing.
  - intros p Hreq Habs.
    apply PyStrFacts.substring_of_app_l, PyStrFacts.substring_of_repr_list.
    by apply elem_of_missing_params.
  - intros h.
    apply (execute_tool_missing _ _ (with_handler h tool)); [|done].
    unfold replace_handler; simpl.
    rewrite PyDictFacts.get_adjust, Hget. by case_decide.
Qed.

Lemma missing_parameters_rejected_witness :
  (∃ p, p ∈ required_params file_reader ∧ (∅ : Params) !! p = None)
  ∧ execute_tool "file_reader" ∅ main_registry
    = (Returns (mkToolResult "file_reader" false PyNone
                  (Some "Missing required parameters: ['filepath']")),
       main_registry).
Proof.
  assert (Hex : ∃ p, p ∈ required_params file_reader
                     ∧ (∅ : Params) !! p = None).
  { exists "filepath". split; [apply list_elem_of_here | reflexivity]. }
  split; [exact Hex|].
  exact (proj1 (missing_parameters_rejected main_registry "file_reader"
                  file_reader ∅ eq_refl Hex)).
Defined.

(** ** The shape of a [ToolResult] *)

Lemma execute_tool_notifier :
  execute_tool "notifier" ∅ notifier_registry
  = (Returns (mkToolResult "notifier" true PyNone None),
     mkRegistry (tools notifier_registry) [mkUsage "notifier" ∅ true None]).
Proof. reflexivity. Qed.

(** C8, as stated, fails: a successful [ToolResult] need not have its output
    populated. The handler of [notifier] returns [None]; the result has
    [success] true while [output] and [error] are both [None]. *)
Lemma success_without_output :
  ¬ (∀ (self self' : ToolRegistry) (tool_name : string) (params : Params)
       (res : ToolResult),
       execute_tool tool_name params self = (Returns res, self') →
       (success res = true → output res ≠ PyNone ∧ error res = None)
       ∧ (success res = false → output res = PyNone ∧ error res ≠ None)).
Proof.
  intros Hclaim.
  destruct (Hclaim _ _ _ _ _ execute_tool_notifier) as [Hsucc _].
  by destruct (Hsucc eq_refl) as [Hout _].
Qed.

(** C8, amended: in every [ToolResult] produced by [execute_tool], the error
    field is a string exactly when [success] is false and is [None] exactly
    when [success] is true; a failed result has output [None]; a successful
    result carries as output the value the handler returned, which is
    [None] when the handler returned [None]. *)
Theorem tool_result_shape (self self' : ToolRegistry) (requested : string)
    (params : Params) (res : ToolResult) :
  execute_tool requested params self = (Returns res, self') →
  tool_name res = requested
  ∧ (success res = true →
     error res = None
     ∧ invocation self requested params = Some (Returns (output res)))
  ∧ (success res = false → output res = PyNone ∧ is_Some (error res))
  ∧ (is_Some (error res) ↔ success res = false).
Proof.
  rewrite execute_tool_eq. unfold invocation.
  destruct (PyDict.get requested (tools self)) as [tool|].
  - destruct (missing_params_of tool params).
    + destruct (handler tool params) as [out|e].
      * intros [= <- _]; simpl. split_and!; [done | done | done |].
        split; [by intros [? ?] | done].
      * destruct (exc_is_Exception e); [|done].
        destruct (py_str e) as [message|e']; [|done].
        destruct (py_str_again e) as [reported|e']; [|done].
        intros [= <- _]; simpl. split_and!; [done | done | eauto |].
        split; [done | eauto].
    + intros [= <- _]; simpl. split_and!; [done | done | eauto |].
      split; [done | eauto].
  - intros [= <- _]; simpl. split_and!; [done | done | eauto |].
    split; [done | eauto].
Qed.

Lemma tool_result_shape_witness :
  execute_tool "notifier" ∅ notifier_registry
  = (Returns (mkToolResult "notifier" true PyNone None),
     mkRegistry (tools notifier_registry) [mkUsage "notifier" ∅ true None])
  ∧ (success (mkToolResult "notifier" true PyNone None) = true →
     error (mkToolResult "notifier" true PyNone None) = None
     ∧ invocation notifier_registry "notifier" ∅ = Some (Returns PyNone)).
Proof.
  split; [reflexivity|].
  exact (proj1 (proj2 (tool_result_shape notifier_registry _ "notifier" ∅ _
                         execute_tool_notifier))).
Defined.

(** ** Conditional execution *)

(** C5, where it holds and where the code departs from it. When
    [needs_tool] reports that no tool is needed, [execute_if_needed]
    returns [None] and leaves the registry, hence the usage log, untouched;
    when [needs_tool] names a tool with a non-empty name, the outcome is
    that of [execute_tool] on the selected tool's name, as a [ToolResult]
    and never as [None]. At the empty name the code fails the claim: in
    [anonymous_registry] the task ["ping"] selects the tool registered
    under the empty name, which [execute_tool] would run, yet
    [execute_if_needed] returns [None], the value that stands for no
    applicable tool. *)
Theorem execute_if_needed_misses_empty_name :
  (∀ self task_description params,
     needs_tool self task_description = (false, None) →
     execute_if_needed task_description params self = (Returns None, self))
  ∧ (∀ self task_description params n,
       needs_tool self task_description = (true, Some n) →
       n ≠ "" →
       ∃ tool, PyDict.get n (tools self) = Some tool
               ∧ execute_if_needed task_description params self
                 = prod_map (fmap Some) id
                            (execute_tool (name tool) params self))
  ∧ needs_tool anonymous_registry "ping" = (true, Some "")
  ∧ execute_tool "" ∅ anonymous_registry
    = (Returns (mkToolResult "" true (PyInt 1) None),
       mkRegistry (tools anonymous_registry) [mkUsage "" ∅ true None])
  ∧ execute_if_needed "ping" ∅ anonymous_registry
    = (Returns None, anonymous_registry).
Proof.
  split_and!; [| |reflexivity..].
  - intros self task_description params Hneeds.
    by rewrite execute_if_needed_eq, (select_tool_no_tool _ _ Hneeds).
  - intros self task_description params n Hneeds Hn.
    destruct (select_tool_named self task_description n Hneeds Hn)
      as (tool & Hget & Hsel).
    exists tool. split; [done|].
    rewrite execute_if_needed_eq, Hsel.
    by destruct (execute_tool (name tool) params self) as [[res|e] self'].
Qed.

(** ** Usage statistics *)

Lemma foldl_add_shift (a : Z) (l : list Z) :
  foldl Z.add a l = a + foldl Z.add 0 l.
Proof.
  revert a. induction l as [|x l IH]; intros a; simpl; [lia|].
  rewrite (IH (a + x)), (IH (0 + x)). lia.
Qed.

Lemma py_sum_nil : py_sum [] = 0.
Proof. reflexivity. Qed.

Lemma py_sum_cons (x : Z) (l : list Z) : py_sum (x :: l) = x + py_sum l.
Proof. unfold py_sum. simpl. apply foldl_add_shift. Qed.

Lemma tally_cons (f : Counts → Z) (k : string) (c : Counts)
    (d : PyDict.t Counts) :
  tally f ((k, c) :: d) = f c + tally f d.
Proof. unfold tally, PyDict.values. simpl. apply py_sum_cons. Qed.

Lemma tally_setitem_new (f : Counts → Z) (k : string) (c : Counts)
    (d : PyDict.t Counts) :
  PyDict.get k d = None → tally f (PyDict.setitem k c d) = tally f d + f c.
Proof.
  induction d as [|[k' c'] d IH]; simpl.
  - intros _. rewrite tally_cons. unfold tally. simpl. rewrite py_sum_nil. lia.
  - case_decide as Hk; [done|]. intros Hget.
    rewrite !tally_cons, IH by done. lia.
Qed.

Lemma tally_adjust (f : Counts → Z) (g : Counts → Counts) (k : string)
    (c : Counts) (d : PyDict.t Counts) :
  PyDict.get k d = Some c →
  tally f (PyDict.adjust g k d) = tally f d - f c + f (g c).
Proof.
  induction d as [|[k' c'] d IH]; simpl; [done|].
  case_decide as Hk.
  - intros [= ->]. rewrite !tally_cons. lia.
  - intros Hget. rewrite !tally_cons, IH by done. lia.
Qed.

(** After the membership test of the loop body the tool has an entry, and
    the sums are what they were. *)
Lemma by_tool_ensure (f : Counts → Z) (tool : string) (d : PyDict.t Counts) :
  f (mkCounts 0 0 0) = 0 →
  let d1 := if negb (PyDict.contains tool d)
            then PyDict.setitem tool (mkCounts 0 0 0) d else d in
  ∃ c, PyDict.get tool d1 = Some c ∧ tally f d1 = tally f d.
Proof.
  intros Hzero. unfold PyDict.contains. simpl.
  destruct (PyDict.get tool d) as [c|] eqn:Hget; simpl.
  - eauto.
  - exists (mkCounts 0 0 0). rewrite PyDictFacts.get_setitem.
    rewrite decide_True by done. rewrite tally_setitem_new by done.
    split; [done | lia].
Qed.

Lemma by_tool_step_tally (f : Counts → Z) (d : PyDict.t Counts)
    (log : UsageRecord) (a b : Z) :
  f (mkCounts 0 0 0) = 0 →
  (∀ c, f (incr_total c) = f c + a) →
  (∀ c, f (if log_success log then incr_success c else incr_failure c)
        = f c + b) →
  tally f (by_tool_step d log) = tally f d + a + b.
Proof.
  intros Hzero Ha Hb. unfold by_tool_step.
  destruct (by_tool_ensure f (log_tool log) d Hzero) as (c & Hget & <-).
  set (d1 := if negb (PyDict.contains (log_tool log) d) then _ else d) in *.
  assert (Hget2 : PyDict.get (log_tool log)
                    (PyDict.adjust incr_total (log_tool log) d1)
                  = Some (incr_total c)).
  { rewrite PyDictFacts.get_adjust, decide_True by done. by rewrite Hget. }
  specialize (Hb (incr_total c)).
  destruct (log_success log);
    rewrite (tally_adjust _ _ _ _ _ Hget2), (tally_adjust _ _ _ _ _ Hget),
      Hb, Ha; lia.
Qed.

Lemma by_tool_fold_tally (f : Counts → Z) (g : UsageRecord → Z)
    (logs : list UsageRecord) (d : PyDict.t Counts) :
  (∀ d' log, tally f (by_tool_step d' log) = tally f d' + g log) →
  tally f (foldl by_tool_step d logs) = tally f d + py_sum (g <$> logs).
Proof.
  intros Hstep. revert d.
  induction logs as [|log logs IH]; intros d.
  - simpl. rewrite py_sum_nil. lia.
  - change (foldl by_tool_step d (log :: logs))
      with (foldl by_tool_step (by_tool_step d log) logs).
    rewrite IH, Hstep, fmap_cons, py_sum_cons. lia.
Qed.

Lemma success_count_eq (logs : list UsageRecord) :
  py_sum ((λ _, 1) <$> filter (λ log, log_success log = true) logs)
  = py_sum (one_success <$> logs).
Proof.
  induction logs as [|log logs IH]; [done|].
  rewrite fmap_cons, py_sum_cons, <- IH. unfold one_success.
  destruct (log_success log) eqn:Hs.
  - rewrite filter_cons_True by done. by rewrite fmap_cons, py_sum_cons.
  - rewrite filter_cons_False by congruence. lia.
Qed.

Lemma total_eq (logs : list UsageRecord) :
  Z.of_nat (length logs)
  = py_sum (one_success <$> logs) + py_sum (one_failure <$> logs).
Proof.
  induction logs as [|log logs IH]; [done|].
  rewrite !fmap_cons, !py_sum_cons. simpl length. rewrite Nat2Z.inj_succ, IH.
  unfold one_success, one_failure. destruct (log_success log); lia.
Qed.

Lemma by_tool_tallies (logs : list UsageRecord) :
  let by_tool := foldl by_tool_step PyDict.empty logs in
  tally c_total by_tool = Z.of_nat (length logs)
  ∧ tally c_success by_tool = py_sum (one_success <$> logs)
  ∧ tally c_failure by_tool = py_sum (one_failure <$> logs).
Proof.
  cbv zeta. split_and!.
  - rewrite (by_tool_fold_tally c_total (λ log, one_success log + one_failure log)).
    + rewrite total_eq. unfold tally at 1. simpl. rewrite py_sum_nil.
      induction logs as [|log logs IH]; [done|].
      rewrite !fmap_cons, !py_sum_cons. lia.
    + intros d' log.
      rewrite (by_tool_step_tally c_total d' log 1 0); [|done|done|].
      * unfold one_success, one_failure. destruct (log_success log); lia.
      * intros c. destruct (log_success log); simpl; lia.
  - rewrite (by_tool_fold_tally c_success one_success).
    + unfold tally at 1. simpl. rewrite py_sum_nil. lia.
    + intros d' log.
      rewrite (by_tool_step_tally c_success d' log 0 (one_success log));
        [lia | done | intros c; simpl; lia |].
      intros c. unfold one_success. destruct (log_success log); simpl; lia.
  - rewrite (by_tool_fold_tally c_failure one_failure).
    + unfold tally at 1. simpl. rewrite py_sum_nil. lia.
    + intros d' log.
      rewrite (by_tool_step_tally c_failure d' log 0 (one_failure log));
        [lia | done | intros c; simpl; lia |].
      intros c. unfold one_failure. destruct (log_success log); simpl; lia.
Qed.

(** C6: on an empty usage log [get_usage_stats] returns the all-zero
    summary with an empty [by_tool]; and whatever the log, the summary has
    [total = success + failure], [total] is the number of records, and the
    per-tool totals, successes and failures add up to the overall total,
    success count and failure count. *)
Theorem usage_stats_consistent :
  (∀ tls, get_usage_stats (mkRegistry tls [])
          = Stats.mk 0 0 0 PyDict.empty)
  ∧ ∀ self,
      let stats := get_usage_stats self in
      Stats.total stats = Z.of_nat (length (tool_usage_log self))
      ∧ Stats.total stats = Stats.success stats + Stats.failure stats
      ∧ tally c_total (Stats.by_tool stats) = Stats.total stats
      ∧ tally c_success (Stats.by_tool stats) = Stats.success stats
      ∧ tally c_failure (Stats.by_tool stats) = Stats.failure stats.
Proof.
  split; [done|].
  intros [tls logs]. unfold get_usage_stats. simpl tool_usage_log.
  destruct (Z.of_nat (length logs) =? 0) eqn:Hzero; cbv zeta.
  - apply Z.eqb_eq in Hzero. simpl. by rewrite Hzero.
  - simpl Stats.total. simpl Stats.success. simpl Stats.failure.
    simpl Stats.by_tool.
    destruct (by_tool_tallies logs) as (Htotal & Hsuccess & Hfailure).
    rewrite Htotal, Hsuccess, Hfailure, success_count_eq.
    pose proof (total_eq logs). split_and!; lia.
Qed.

(** ** The testable properties of the specification, on the samples *)

Example needs_tool_calculate :
  needs_tool main_registry "Calculate the sum of 10 and 20"
  = (true, Some "calculator").
Proof. reflexivity. Qed.

Example needs_tool_spec_calculate :
  needs_tool_spec main_registry "Calculate the sum of 10 and 20"
  = (true, Some "calculator").
Proof. vm_compute. reflexivity. Qed.

Example needs_tool_category_fallback :
  needs_tool main_registry "Please SORT these rows"
  = (true, Some "data_transformer").
Proof. reflexivity. Qed.

Example nothing_to_execute :
  needs_tool main_registry "Just think about this" = (false, None)
  ∧ execute_if_needed "Just think about this" ∅ main_registry
    = (Returns None, main_registry).
Proof. split; reflexivity. Qed.

Example execute_tool_unknown :
  execute_tool "nonexistent" ∅ main_registry
  = (Returns (mkToolResult "nonexistent" false PyNone
                (Some "Tool 'nonexistent' not found")), main_registry).
Proof. reflexivity. Qed.

Example execute_tool_web_fetch :
  execute_tool "web_fetch" {[ "url" := PyString "https://api.example.com" ]}
               main_registry
  = (Returns (mkToolResult "web_fetch" true
                (PyMapping [("status", PyInt 200); ("size", PyInt 1024)])
                None),
     mkRegistry (tools main_registry)
       [mkUsage "web_fetch" {[ "url" := PyString "https://api.example.com" ]}
                true None]).
Proof. reflexivity. Qed.

Example usage_stats_after_two_calls :
  let after_fetch :=
    (execute_tool "web_fetch" {[ "url" := PyNone ]} main_registry).2 in
  let after_both :=
    (execute_tool "calculator" calculator_params after_fetch).2 in
  get_usage_stats after_both
  = Stats.mk 2 1 1 [("web_fetch", mkCounts 1 1 0);
                    ("calculator", mkCounts 1 0 1)].
Proof. reflexivity. Qed.

Example repr_list_quotes :
  PyStr.repr_list ["filepath"; "it's"] = "['filepath', " +:+ String (PyStr.chr 34) ("it's" +:+ String (PyStr.chr 34) "]").
Proof. reflexivity. Qed.

(** * Part V. Further properties of the registry *)

(** ** Vocabulary *)

(** The registries a program can build: a fresh one, changed by any number
    of registrations and executions. *)
Inductive reachable : ToolRegistry → Prop :=
  | reachable_init :
      reachable ToolRegistry_init
  | reachable_register self tool :
      reachable self → reachable (register self tool)
  | reachable_execute_tool self requested params :
      reachable self → reachable (execute_tool requested params self).2
  | reachable_execute_if_needed self task_description params :
      reachable self →
      reachable (execute_if_needed task_description params self).2.

(** What every reachable registry satisfies: keys are distinct, every tool
    sits under its own name, every log record names a registered tool and
    carries an error message exactly when it records a failure. *)
Definition record_consistent (tls : PyDict.t Tool) (entry : UsageRecord)
  : Prop :=
  is_Some (PyDict.get (log_tool entry) tls)
  ∧ (log_success entry = true ↔ log_error entry = None).

Definition registry_consistent (self : ToolRegistry) : Prop :=
  PyDict.wf (tools self)
  ∧ Forall (λ it : string * Tool, name it.2 = it.1) (tools self)
  ∧ Forall (record_consistent (tools self)) (tool_usage_log self).

(** The members of [ToolType], in declaration order. *)
Definition all_tool_types : list ToolType :=
  [WEB; FILE; DATA; CALCULATION; COMMUNICATION; SYSTEM].

(** The log records of one tool, and the counters they add up to. *)
Definition records_of (tool : string) (logs : list UsageRecord)
  : list UsageRecord :=
  filter (λ log, log_tool log = tool) logs.

Definition counts_of (logs : list UsageRecord) : Counts :=
  mkCounts (Z.of_nat (length logs))
           (py_sum (one_success <$> logs))
           (py_sum (one_failure <$> logs)).

Definition per_tool (tool : string) (logs : list UsageRecord)
  : option Counts :=
  match records_of tool logs with
  | [] => None
  | rs => Some (counts_of rs)
  end.

(** The registry after one successful call of [web_fetch]. *)
Definition fetched_registry : ToolRegistry :=
  (execute_tool "web_fetch" {[ "url" := PyNone ]} main_registry).2.

(** ** The log and the tools of a reachable registry *)

Lemma execute_if_needed_state (self : ToolRegistry)
    (task_description : string) (params : Params) :
  (execute_if_needed task_description params self).2 = self
  ∨ ∃ tool, (execute_if_needed task_description params self).2
            = (execute_tool (name tool) params self).2.
Proof.
  rewrite execute_if_needed_eq.
  destruct (select_tool self task_description) as [tool|]; [|by left].
  right. exists tool.
  by destruct (execute_tool (name tool) params self) as [[res|e] self'].
Qed.

Lemma record_consistent_register (self : ToolRegistry) (tool : Tool)
    (entry : UsageRecord) :
  record_consistent (tools self) entry →
  record_consistent (tools (register self tool)) entry.
Proof.
  intros [Hreg Herr]. split; [|done].
  unfold register; simpl. rewrite PyDictFacts.get_setitem.
  by case_decide.
Qed.

Lemma appended_consistent (self : ToolRegistry) (requested : string)
    (params : Params) :
  Forall (record_consistent (tools self)) (appended self requested params).
Proof.
  unfold appended, invocation.
  destruct (PyDict.get requested (tools self)) as [tool|] eqn:Hget;
    [|by constructor].
  destruct (missing_params_of tool params); [|by constructor].
  destruct (logged (handler tool params)) eqn:Habs; [|by constructor].
  constructor; [|by constructor].
  unfold record_consistent.
  destruct (handler tool params) as [out|e]; simpl; rewrite Hget.
  - split; [eauto | by split].
  - apply Is_true_true, logged_raise in Habs as [_ [message Hstr]].
    apply exc_message_py_str in Hstr. rewrite Hstr.
    split; [eauto | by split].
Qed.

Lemma registry_consistent_execute_tool (self : ToolRegistry)
    (requested : string) (params : Params) :
  registry_consistent self →
  registry_consistent (execute_tool requested params self).2.
Proof.
  intros (Hwf & Hkeys & Hlog). rewrite execute_tool_log.
  split_and!; [done | done |]. simpl.
  apply Forall_app. split; [done | apply appended_consistent].
Qed.

Lemma reachable_invariant (self : ToolRegistry) :
  reachable self → registry_consistent self.
Proof.
  induction 1 as [|self tool _ (Hwf & Hkeys & Hlog)
                  |self requested params _ IH
                  |self task_description params _ IH].
  - split_and!; [apply PyDictFacts.wf_empty | constructor | constructor].
  - split_and!.
    + by apply PyDictFacts.wf_setitem.
    + by apply setitem_Forall.
    + simpl. eapply Forall_impl; [exact Hlog|].
      intros entry. apply record_consistent_register.
  - by apply registry_consistent_execute_tool.
  - destruct (execute_if_needed_state self task_description params)
      as [-> | [tool ->]]; [done|].
    by apply registry_consistent_execute_tool.
Qed.

(** X1: in every registry built from a fresh one by registrations and
    executions, the keys of the tool mapping are pairwise distinct, every
    tool is stored under its own name, every usage record names a
    registered tool, and a record carries an error message exactly when it
    records a failure. *)
Theorem reachable_consistent (self : ToolRegistry) :
  reachable self → registry_consistent self.
Proof. apply reachable_invariant. Qed.

Lemma reachable_registry_of (ts : list Tool) : reachable (registry_of ts).
Proof.
  induction ts as [|tool ts IH] using rev_ind; [constructor|].
  rewrite registry_of_snoc. by constructor.
Qed.

Lemma reachable_consistent_witness :
  reachable fetched_registry ∧ registry_consistent fetched_registry.
Proof.
  assert (Hreach : reachable fetched_registry).
  { apply reachable_execute_tool, reachable_registry_of. }
  split; [exact Hreach|].
  exact (reachable_consistent fetched_registry Hreach).
Defined.

(** X2: the usage log is append-only and executions never touch the tool
    mapping: [execute_tool] and [execute_if_needed] keep the registered
    tools and keep every earlier record, in place, at the front of the log;
    [register] leaves the log as it is. *)
Theorem usage_log_append_only (self : ToolRegistry) (requested : string)
    (task_description : string) (params : Params) (tool : Tool) :
  let after_tool := (execute_tool requested params self).2 in
  let after_task := (execute_if_needed task_description params self).2 in
  tools after_tool = tools self
  ∧ tool_usage_log self `prefix_of` tool_usage_log after_tool
  ∧ tools after_task = tools self
  ∧ tool_usage_log self `prefix_of` tool_usage_log after_task
  ∧ (length (tool_usage_log after_task)
     ≤ S (length (tool_usage_log self)))%nat
  ∧ tool_usage_log (register self tool) = tool_usage_log self.
Proof.
  cbv zeta.
  assert (Hone : ∀ n, (length (appended self n params) ≤ 1)%nat).
  { intros n. unfold appended.
    destruct (invocation self n params) as [r|]; [|simpl; lia].
    destruct (logged r); simpl; lia. }
  split_and!.
  - by rewrite execute_tool_log.
  - rewrite execute_tool_log. by apply prefix_app_r.
  - destruct (execute_if_needed_state self task_description params)
      as [-> | [t ->]]; [done|]. by rewrite execute_tool_log.
  - destruct (execute_if_needed_state self task_description params)
      as [-> | [t ->]]; [done|].
    rewrite execute_tool_log. by apply prefix_app_r.
  - destruct (execute_if_needed_state self task_description params)
      as [-> | [t ->]]; [lia|].
    rewrite execute_tool_log. simpl. rewrite length_app.
    specialize (Hone (name t)). lia.
  - done.
Qed.

(** ** Listing by category *)

Lemma filter_by_type_length (l : list Tool) :
  length l
  = sum_list ((λ ty, length (filter (λ t, type t = ty) l)) <$> all_tool_types).
Proof.
  induction l as [|t l IH]; [done|].
  simpl in IH |- *. rewrite IH.
  rewrite !filter_cons.
  destruct (type t); repeat case_decide; try done; simpl; lia.
Qed.

(** X3: [list_tools(ty)] is [list_tools()] with the tools of other
    categories left out and the order kept; every listed tool appears under
    exactly one category, so the lengths of the six per-category lists add
    up to the length of the full list. *)
Theorem list_tools_by_category (self : ToolRegistry) :
  (∀ ty, list_tools self (Some ty) `sublist_of` list_tools self None)
  ∧ (∀ ty t, t ∈ list_tools self (Some ty)
             ↔ t ∈ list_tools self None ∧ type t = ty)
  ∧ length (list_tools self None)
    = sum_list ((λ ty, length (list_tools self (Some ty))) <$> all_tool_types).
Proof.
  unfold list_tools. split_and!.
  - intros ty. apply sublist_filter.
  - intros ty t. rewrite list_elem_of_filter. tauto.
  - apply filter_by_type_length.
Qed.

(** ** Lookup failures and the round trip through [register] *)

(** X4: [execute_tool] on a name that is not registered returns the failed
    result with error [Tool '<name>' not found] and output [None], and
    leaves the whole registry, log included, as it was, whatever tools are
    registered under other names. *)
Theorem execute_tool_not_found (self : ToolRegistry) (requested : string)
    (params : Params) :
  PyDict.get requested (tools self) = None →
  execute_tool requested params self
  = (Returns (mkToolResult requested false PyNone
                (Some ("Tool '" +:+ requested +:+ "' not found"))), self).
Proof. intros Hget. by rewrite execute_tool_eq, Hget. Qed.

Lemma execute_tool_not_found_witness :
  PyDict.get "nonexistent" (tools main_registry) = None
  ∧ execute_tool "nonexistent" ∅ main_registry
    = (Returns (mkToolResult "nonexistent" false PyNone
                  (Some "Tool 'nonexistent' not found")), main_registry).
Proof.
  split; [reflexivity|].
  exact (execute_tool_not_found main_registry "nonexistent" ∅ eq_refl).
Defined.

Lemma execute_tool_registered (self : ToolRegistry) (tool : Tool)
    (params : Params) :
  execute_tool (name tool) params (register self tool)
  = match missing_params_of tool params with
    | (_ :: _) as missing =>
        (Returns (mkToolResult (name tool) false PyNone
                    (Some ("Missing required parameters: "
                           +:+ PyStr.repr_list missing))),
         register self tool)
    | [] =>
        match handler tool params with
        | Returns out =>
            (Returns (mkToolResult (name tool) true out None),
             mkRegistry (tools (register self tool))
               (tool_usage_log self
                ++ [mkUsage (name tool) params true None]))
        | Raises e =>
            if exc_is_Exception e
            then match py_str e with
                 | Returns message =>
                     let self' :=
                       mkRegistry (tools (register self tool))
                         (tool_usage_log self
                          ++ [mkUsage (name tool) params false
                                      (Some message)]) in
                     match py_str_again e with
                     | Returns reported =>
                         (Returns (mkToolResult (name tool) false PyNone
                                     (Some reported)), self')
                     | Raises e' => (Raises e', self')
                     end
                 | Raises e' => (Raises e', register self tool)
                 end
            else (Raises e, register self tool)
        end
    end.
Proof.
  rewrite execute_tool_eq. unfold register at 1; simpl.
  by rewrite PyDictFacts.get_setitem, decide_True.
Qed.

(** X5: registration and execution compose. After [register(tool)], a call
    of [execute_tool(tool.name, params)] is decided by the newly registered
    descriptor alone, whatever was registered under that name before: it
    fails with the missing-parameter message when one of the tool's
    required names is absent, and otherwise runs the tool's handler,
    giving a successful result with the handler's output and one success
    record when the handler returns, and a failed result with the message
    and one failure record when it raises an instance of [Exception] whose
    [str(e)] returns both times. A call for any other name gives the
    result it gave before the registration, with the same effect on the
    log. *)
Theorem register_then_execute (self : ToolRegistry) (tool : Tool)
    (params : Params) :
  let registered := register self tool in
  let run := execute_tool (name tool) params registered in
  (missing_params_of tool params ≠ [] →
   run = (Returns (mkToolResult (name tool) false PyNone
                     (Some ("Missing required parameters: "
                            +:+ PyStr.repr_list
                                  (missing_params_of tool params)))),
          registered))
  ∧ (∀ out, missing_params_of tool params = [] →
       handler tool params = Returns out →
       run = (Returns (mkToolResult (name tool) true out None),
              mkRegistry (tools registered)
                (tool_usage_log self
                 ++ [mkUsage (name tool) params true None])))
  ∧ (∀ e message reported, missing_params_of tool params = [] →
       handler tool params = Raises e →
       exc_is_Exception e = true →
       py_str e = Returns message →
       py_str_again e = Returns reported →
       run = (Returns (mkToolResult (name tool) false PyNone (Some reported)),
              mkRegistry (tools registered)
                (tool_usage_log self
                 ++ [mkUsage (name tool) params false (Some message)])))
  ∧ ∀ other, other ≠ name tool →
      execute_tool other params registered
      = prod_map id (λ s, register s tool) (execute_tool other params self).
Proof.
  cbv zeta. rewrite execute_tool_registered. split_and!.
  - intros Hne. by destruct (missing_params_of tool params).
  - by intros out -> ->.
  - by intros e message reported -> -> -> -> ->.
  - intros other Hother. rewrite !execute_tool_eq.
    unfold register at 1; simpl.
    rewrite PyDictFacts.get_setitem, decide_False by done.
    destruct (PyDict.get other (tools self)) as [t|]; [|done].
    destruct (missing_params_of t params); [|done].
    destruct (handler t params) as [out|e]; [done|].
    destruct (exc_is_Exception e); [|done].
    destruct (py_str e); [|done].
    by destruct (py_str_again e).
Qed.

(** ** Selection: case and context *)

Lemma lower_char_idemp (c : ascii) :
  PyStr.lower_char (PyStr.lower_char c) = PyStr.lower_char c.
Proof. by destruct c as [[] [] [] [] [] [] [] []]. Qed.

(** Of [lower] the properties in this file use two facts only, which hold
    of [str.lower] on all text: it maps the empty string to itself and
    applying it twice is applying it once. *)
Lemma lower_idemp (s : string) : PyStr.lower (PyStr.lower s) = PyStr.lower s.
Proof.
  induction s as [|c s IH]; [done|].
  simpl. by rewrite lower_char_idemp, IH.
Qed.

(** X6: selection does not depend on the case of the task description:
    [needs_tool], [select_tool] and [execute_if_needed] give on a
    description the answer they give on its lower-cased form. *)
Theorem selection_ignores_case (self : ToolRegistry)
    (task_description : string) (params : Params) :
  needs_tool self (PyStr.lower task_description)
  = needs_tool self task_description
  ∧ select_tool self (PyStr.lower task_description)
    = select_tool self task_description
  ∧ execute_if_needed (PyStr.lower task_description) params self
    = execute_if_needed task_description params self.
Proof.
  assert (Hneeds : needs_tool self (PyStr.lower task_description)
                   = needs_tool self task_description).
  { unfold needs_tool. by rewrite lower_idemp. }
  assert (Hsel : select_tool self (PyStr.lower task_description)
                 = select_tool self task_description).
  { unfold select_tool. by rewrite Hneeds. }
  split_and!; [done | done |].
  by rewrite !execute_if_needed_eq, Hsel.
Qed.

Lemma first_match_is_Some (P : string * Tool → Prop) `{∀ it, Decision (P it)}
    (its : list (string * Tool)) :
  Exists P its → is_Some (first_match P its).
Proof.
  intros Hex. destruct (first_match P its) as [n|] eqn:Hfm; [eauto|].
  apply first_match_None in Hfm.
  apply Exists_exists in Hex as (it & Hit & HP).
  rewrite Forall_forall in Hfm. by destruct (Hfm it Hit).
Qed.

Lemma first_match_Exists (P : string * Tool → Prop) `{∀ it, Decision (P it)}
    (its : list (string * Tool)) (n : string) :
  first_match P its = Some n → Exists P its.
Proof.
  intros (i & tool & Hi & HP & _)%first_match_Some.
  apply Exists_exists. exists (n, tool).
  split; [by eapply list_elem_of_lookup_2 | done].
Qed.

Lemma substring_of_trans (a b c : string) :
  PyStr.substring_of a b → PyStr.substring_of b c → PyStr.substring_of a c.
Proof.
  intros (before & after & ->) (before' & after' & ->).
  exists (before' +:+ before), (after +:+ after').
  by rewrite !PyStrFacts.app_assoc.
Qed.

(** X7: a longer text never hides a match: when [needs_tool] finds a tool
    for a description, it finds a tool for every description whose
    lower-cased form contains the lower-cased form of the first. (The tool
    found may be another one, since the longer text can match an earlier
    tool or a keyword.) *)
Theorem needs_tool_context (self : ToolRegistry)
    (task_description longer n : string) :
  needs_tool self task_description = (true, Some n) →
  PyStr.substring_of (PyStr.lower task_description) (PyStr.lower longer) →
  ∃ n', needs_tool self longer = (true, Some n').
Proof.
  rewrite !needs_tool_unfold.
  set (its := PyDict.items (tools self)).
  set (tl := PyStr.lower task_description).
  set (tl' := PyStr.lower longer).
  intros Hneeds Hsub.
  assert (Hkw : Exists (keyword_rule_fires tl) its →
                Exists (keyword_rule_fires tl') its).
  { intros Hex. eapply Exists_impl; [exact Hex|].
    intros it Hit. unfold keyword_rule_fires in *.
    eapply Exists_impl; [exact Hit|].
    intros kw Hone. exact (substring_of_trans _ _ _ Hone Hsub). }
  assert (Hcat : Exists (category_rule_fires tl) its →
                 Exists (category_rule_fires tl') its).
  { intros Hex. eapply Exists_impl; [exact Hex|].
    intros it Hit. unfold category_rule_fires in *.
    eapply Exists_impl; [exact Hit|].
    intros pat Hone. exact (substring_of_trans _ _ _ Hone Hsub). }
  destruct (first_match (keyword_rule_fires tl') its) as [m|] eqn:Hm;
    [eauto|].
  destruct (first_match (keyword_rule_fires tl) its) as [k|] eqn:Hk.
  - destruct (first_match_is_Some _ _ (Hkw (first_match_Exists _ _ _ Hk)))
      as [m Hm'].
    congruence.
  - destruct (first_match (category_rule_fires tl) its) as [k|] eqn:Hc;
      [|done].
    destruct (first_match_is_Some _ _ (Hcat (first_match_Exists _ _ _ Hc)))
      as [m ->].
    eauto.
Qed.

Lemma needs_tool_context_witness :
  needs_tool main_registry "compute" = (true, Some "calculator")
  ∧ PyStr.substring_of (PyStr.lower "compute")
                       (PyStr.lower "Please COMPUTE 2+2 via HTTP")
  ∧ ∃ n', needs_tool main_registry "Please COMPUTE 2+2 via HTTP"
          = (true, Some n').
Proof.
  assert (Hsub : PyStr.substring_of (PyStr.lower "compute")
                   (PyStr.lower "Please COMPUTE 2+2 via HTTP"))
    by by exists "please ", " 2+2 via http".
  split_and!; [reflexivity | exact Hsub |].
  exact (needs_tool_context main_registry "compute"
           "Please COMPUTE 2+2 via HTTP" "calculator" eq_refl Hsub).
Defined.

(** ** Selection and registration *)

Lemma setitem_fresh {V} (k : string) (v : V) (d : PyDict.t V) :
  PyDict.get k d = None → PyDict.setitem k v d = d ++ [(k, v)].
Proof.
  induction d as [|[k' v'] d IH]; simpl; [done|].
  case_decide as Hk; [done|]. intros Hget. by rewrite IH.
Qed.

Lemma first_match_app (P : string * Tool → Prop) `{∀ it, Decision (P it)}
    (its its' : list (string * Tool)) :
  first_match P (its ++ its')
  = match first_match P its with
    | Some n => Some n
    | None => first_match P its'
    end.
Proof.
  induction its as [|it its IH]; [done|].
  rewrite <- app_comm_cons, !first_match_cons, IH. by case_decide.
Qed.

(** X8: registering a tool under a name that is not yet registered puts it
    last in line: a description for which the keyword rule already fires
    keeps its answer, and a description for which [needs_tool] found a tool
    still gets a tool. *)
Theorem register_fresh_keeps_selection (self : ToolRegistry) (tool : Tool)
    (task_description : string) :
  PyDict.get (name tool) (tools self) = None →
  (Exists (keyword_rule_fires (PyStr.lower task_description))
          (PyDict.items (tools self)) →
   needs_tool (register self tool) task_description
   = needs_tool self task_description)
  ∧ (∀ n, needs_tool self task_description = (true, Some n) →
          ∃ n', needs_tool (register self tool) task_description
                = (true, Some n')).
Proof.
  intros Hfresh. rewrite !needs_tool_unfold.
  unfold register, PyDict.items; simpl. rewrite (setitem_fresh _ _ _ Hfresh).
  rewrite !first_match_app. split.
  - intros Hex. by destruct (first_match_is_Some _ _ Hex) as [n ->].
  - intros n Hn.
    destruct (first_match (keyword_rule_fires _) (tools self)) as [k|];
      [eauto|].
    destruct (first_match (keyword_rule_fires _) [_]) as [k|]; [eauto|].
    destruct (first_match (category_rule_fires _) (tools self)) as [k|];
      [eauto | done].
Qed.

Lemma register_fresh_keeps_selection_witness :
  PyDict.get (name notifier) (tools main_registry) = None
  ∧ ∃ n', needs_tool (register main_registry notifier) "notify by http"
          = (true, Some n').
Proof.
  split; [reflexivity|].
  exact (proj2 (register_fresh_keeps_selection main_registry notifier
                  "notify by http" eq_refl) "web_fetch" eq_refl).
Defined.

(** ** Validation looks at keys only *)

(** X9: the required-parameter check asks only whether each required name
    is a key of the parameter mapping. Supplying a parameter, with any
    value, [None] included, removes exactly that name from the missing
    names; and nothing is missing exactly when every required name is a
    key. *)
Theorem validation_by_key (tool : Tool) (params : Params) (k : string)
    (v : PyVal) :
  missing_params_of tool (<[k:=v]> params)
  = filter (λ p, p ≠ k) (missing_params_of tool params)
  ∧ (missing_params_of tool params = []
     ↔ ∀ p, p ∈ required_params tool → is_Some (params !! p)).
Proof.
  unfold missing_params_of. split.
  - rewrite list_filter_filter. apply list_filter_iff.
    intros p. rewrite lookup_insert_None. split; intros [? ?]; split; auto.
  - split.
    + intros Hnil p Hp.
      destruct (params !! p) as [x|] eqn:Hlook; [eauto|].
      assert (Hin : p ∈ filter (λ p, params !! p = None) (required_params tool))
        by by apply list_elem_of_filter.
      rewrite Hnil in Hin. by apply elem_of_nil in Hin.
    + intros Hall.
      destruct (filter _ (required_params tool)) as [|p l] eqn:Hf; [done|].
      assert (Hin : p ∈ filter (λ p, params !! p = None) (required_params tool))
        by (rewrite Hf; apply list_elem_of_here).
      apply list_elem_of_filter in Hin as [Hnone Hreq].
      destruct (Hall p Hreq) as [x Hx]. congruence.
Qed.

(** ** Conditional execution on reachable registries *)

(** X10: on a reachable registry, [execute_if_needed] executes the tool
    that [needs_tool] names: when [needs_tool] answers [(true, name)] with
    a non-empty [name], the outcome is that of [execute_tool] on [name]. *)
Theorem execute_if_needed_runs_needed (self : ToolRegistry)
    (task_description n : string) (params : Params) :
  reachable self →
  needs_tool self task_description = (true, Some n) →
  n ≠ "" →
  execute_if_needed task_description params self
  = prod_map (fmap Some) id (execute_tool n params self).
Proof.
  intros Hreach Hneeds Hn.
  destruct (select_tool_named self task_description n Hneeds Hn)
    as (tool & Hget & Hsel).
  destruct (reachable_invariant self Hreach) as (_ & Hkeys & _).
  rewrite Forall_forall in Hkeys.
  specialize (Hkeys _ (PyDictFacts.get_elem_of _ _ _ Hget)). simpl in Hkeys.
  rewrite execute_if_needed_eq, Hsel, Hkeys.
  by destruct (execute_tool n params self) as [[res|e] self'].
Qed.

Lemma execute_if_needed_runs_needed_witness :
  reachable main_registry
  ∧ needs_tool main_registry "Calculate 1 +" = (true, Some "calculator")
  ∧ execute_if_needed "Calculate 1 +" calculator_params main_registry
    = prod_map (fmap Some) id
        (execute_tool "calculator" calculator_params main_registry).
Proof.
  assert (Hreach : reachable main_registry) by apply reachable_registry_of.
  split_and!; [exact Hreach | reflexivity |].
  apply (execute_if_needed_runs_needed main_registry "Calculate 1 +"
           "calculator" calculator_params Hreach eq_refl).
  discriminate.
Defined.

(** ** Statistics per tool *)

(** One record added to a counter triple, and a list of records added. *)
Definition bump (c : Counts) (log : UsageRecord) : Counts :=
  if log_success log then incr_success (incr_total c)
  else incr_failure (incr_total c).

Definition add_counts (c : Counts) (logs : list UsageRecord) : Counts :=
  mkCounts (c_total c + Z.of_nat (length logs))
           (c_success c + py_sum (one_success <$> logs))
           (c_failure c + py_sum (one_failure <$> logs)).

Definition extend (oc : option Counts) (logs : list UsageRecord)
  : option Counts :=
  match logs with
  | [] => oc
  | _ :: _ => Some (add_counts (default (mkCounts 0 0 0) oc) logs)
  end.

(** Whether a handler outcome is a returned value. *)
Definition succeeded (r : result PyVal) : bool :=
  match r with Returns _ => true | Raises _ => false end.

Lemma by_tool_step_get (d : PyDict.t Counts) (log : UsageRecord)
    (n : string) :
  PyDict.get n (by_tool_step d log)
  = if decide (log_tool log = n)
    then Some (bump (default (mkCounts 0 0 0) (PyDict.get n d)) log)
    else PyDict.get n d.
Proof.
  unfold by_tool_step, bump, PyDict.contains.
  set (tool := log_tool log).
  assert (Hensure : ∀ m,
    PyDict.get m (if negb (match PyDict.get tool d with
                           | Some _ => true | None => false end)
                  then PyDict.setitem tool (mkCounts 0 0 0) d else d)
    = if decide (tool = m)
      then Some (default (mkCounts 0 0 0) (PyDict.get tool d))
      else PyDict.get m d).
  { intros m. destruct (PyDict.get tool d) as [c|] eqn:Hget; simpl.
    - case_decide; congruence.
    - rewrite PyDictFacts.get_setitem. by case_decide. }
  destruct (log_success log);
    rewrite !PyDictFacts.get_adjust, !Hensure;
    case_decide; subst; by rewrite ?decide_True.
Qed.

Lemma add_counts_bump (c : Counts) (log : UsageRecord)
    (logs : list UsageRecord) :
  add_counts (bump c log) logs = add_counts c (log :: logs).
Proof.
  unfold add_counts, bump, one_success, one_failure.
  rewrite !fmap_cons, !py_sum_cons. simpl length. rewrite Nat2Z.inj_succ.
  destruct (log_success log); simpl; f_equal; lia.
Qed.

Lemma add_counts_nil (c : Counts) : add_counts c [] = c.
Proof.
  destruct c as [t s f]. unfold add_counts. simpl.
  rewrite py_sum_nil. f_equal; lia.
Qed.

Lemma by_tool_fold_get (logs : list UsageRecord) (d : PyDict.t Counts)
    (n : string) :
  PyDict.get n (foldl by_tool_step d logs)
  = extend (PyDict.get n d) (records_of n logs).
Proof.
  revert d. induction logs as [|log logs IH]; intros d; [done|].
  change (foldl by_tool_step d (log :: logs))
    with (foldl by_tool_step (by_tool_step d log) logs).
  rewrite IH, by_tool_step_get. unfold records_of. rewrite filter_cons.
  case_decide as Hn; [|done].
  set (c := default (mkCounts 0 0 0) (PyDict.get n d)).
  destruct (filter _ logs) as [|log' logs'] eqn:Hrest; simpl.
  - by rewrite <- add_counts_bump, add_counts_nil.
  - by rewrite add_counts_bump.
Qed.

Lemma by_tool_get (self : ToolRegistry) (n : string) :
  PyDict.get n (Stats.by_tool (get_usage_stats self))
  = per_tool n (tool_usage_log self).
Proof.
  unfold get_usage_stats, per_tool.
  destruct (Z.of_nat (length (tool_usage_log self)) =? 0) eqn:Hzero; simpl.
  - apply Z.eqb_eq in Hzero.
    destruct (tool_usage_log self); [done | simpl in Hzero; lia].
  - rewrite by_tool_fold_get. simpl.
    destruct (records_of n (tool_usage_log self)) as [|log logs]; [done|].
    simpl. by f_equal.
Qed.

(** X11: [by_tool] has an entry for exactly the tools that occur in the
    usage log, and the entry of a tool holds the number of its records,
    of its successful records and of its failed records; so each entry has
    a positive total equal to its successes plus its failures. *)
Theorem by_tool_counts_records (self : ToolRegistry) (n : string) :
  PyDict.get n (Stats.by_tool (get_usage_stats self))
  = per_tool n (tool_usage_log self)
  ∧ (is_Some (PyDict.get n (Stats.by_tool (get_usage_stats self)))
     ↔ ∃ log, log ∈ tool_usage_log self ∧ log_tool log = n)
  ∧ ∀ c, PyDict.get n (Stats.by_tool (get_usage_stats self)) = Some c →
         0 < c_total c ∧ c_total c = c_success c + c_failure c.
Proof.
  rewrite by_tool_get. unfold per_tool. split_and!; [done | |].
  - destruct (records_of n (tool_usage_log self)) as [|log logs] eqn:Hrec.
    + split; [by intros [? ?]|].
      intros (log & Hin & Hn).
      assert (Hlog : log ∈ records_of n (tool_usage_log self))
        by by apply list_elem_of_filter.
      rewrite Hrec in Hlog. by apply elem_of_nil in Hlog.
    + split; [intros _|eauto].
      assert (Hlog : log ∈ records_of n (tool_usage_log self))
        by (rewrite Hrec; apply list_elem_of_here).
      apply list_elem_of_filter in Hlog as [Hn Hin]. eauto.
  - intros c.
    destruct (records_of n (tool_usage_log self)) as [|log logs]; [done|].
    intros [= <-]. pose proof (total_eq (log :: logs)) as Htotal.
    unfold counts_of. cbn [c_total c_success c_failure].
    simpl length in *. lia.
Qed.

(** ** Statistics across an execution *)

Lemma stats_of_log (self : ToolRegistry) :
  Stats.total (get_usage_stats self) = Z.of_nat (length (tool_usage_log self))
  ∧ Stats.success (get_usage_stats self)
    = py_sum (one_success <$> tool_usage_log self)
  ∧ Stats.failure (get_usage_stats self)
    = py_sum (one_failure <$> tool_usage_log self).
Proof.
  unfold get_usage_stats.
  destruct (Z.of_nat (length (tool_usage_log self)) =? 0) eqn:Hzero; simpl.
  - apply Z.eqb_eq in Hzero.
    destruct (tool_usage_log self); [done | simpl in Hzero; lia].
  - rewrite success_count_eq.
    pose proof (total_eq (tool_usage_log self)). split_and!; lia.
Qed.

Lemma py_sum_app (l k : list Z) : py_sum (l ++ k) = py_sum l + py_sum k.
Proof.
  induction l as [|x l IH]; [rewrite py_sum_nil; simpl; lia|].
  rewrite <- app_comm_cons, !py_sum_cons, IH. lia.
Qed.

Lemma usage_entry_success (requested : string) (params : Params)
    (r : result PyVal) :
  log_success (usage_entry requested params r) = succeeded r
  ∧ log_tool (usage_entry requested params r) = requested.
Proof. by destruct r. Qed.

Lemma counts_of_snoc (logs : list UsageRecord) (log : UsageRecord) :
  counts_of (logs ++ [log]) = bump (counts_of logs) log.
Proof.
  unfold counts_of, bump, incr_success, incr_failure, incr_total.
  rewrite !fmap_app, !py_sum_app, length_app, !fmap_cons, !fmap_nil.
  rewrite !py_sum_cons, !py_sum_nil, Nat2Z.inj_add.
  unfold one_success at 2, one_failure at 2.
  destruct (log_success log); cbn [c_total c_success c_failure];
    f_equal; simpl; lia.
Qed.

(** X12: statistics follow executions. When a call of [execute_tool]
    reaches the handler and its outcome is logged (the handler returns, or
    raises an instance of [Exception] whose [str(e)], taken for the record,
    returns), [get_usage_stats]
    afterwards reports one more in [total], one more in [success] if the
    handler returned and one more in [failure] if it raised; the entry of
    the executed tool in [by_tool] moves likewise and the entries of other
    tools stay. When the call appends nothing, for a missing tool, a
    missing parameter or an exception that passes through, the statistics
    are what they were. *)
Theorem stats_follow_execution (self : ToolRegistry) (requested : string)
    (params : Params) :
  let before := get_usage_stats self in
  let after := get_usage_stats (execute_tool requested params self).2 in
  (∀ r, invocation self requested params = Some r → logged r →
     Stats.total after = Stats.total before + 1
     ∧ Stats.success after
       = Stats.success before + (if succeeded r then 1 else 0)
     ∧ Stats.failure after
       = Stats.failure before + (if succeeded r then 0 else 1)
     ∧ PyDict.get requested (Stats.by_tool after)
       = Some (bump (default (mkCounts 0 0 0)
                             (PyDict.get requested (Stats.by_tool before)))
                    (usage_entry requested params r))
     ∧ ∀ other, other ≠ requested →
         PyDict.get other (Stats.by_tool after)
         = PyDict.get other (Stats.by_tool before))
  ∧ (appended self requested params = [] → after = before).
Proof.
  cbv zeta. rewrite execute_tool_log. split.
  - intros r Hinv Habs. unfold appended. rewrite Hinv.
    destruct (logged r); [|done]. clear Habs.
    set (entry := usage_entry requested params r).
    destruct (usage_entry_success requested params r) as [Hsucc Htool].
    fold entry in Hsucc, Htool.
    destruct (stats_of_log self) as (Ht & Hs & Hf).
    destruct (stats_of_log
                (mkRegistry (tools self) (tool_usage_log self ++ [entry])))
      as (Ht' & Hs' & Hf').
    simpl tool_usage_log in Ht', Hs', Hf'.
    rewrite Ht', Hs', Hf', Ht, Hs, Hf.
    rewrite !fmap_app, !py_sum_app, length_app. simpl.
    rewrite !py_sum_cons, !py_sum_nil.
    unfold one_success, one_failure. rewrite Hsucc.
    rewrite !by_tool_get. simpl tool_usage_log. unfold per_tool, records_of.
    rewrite !filter_app.
    split_and!; [lia | destruct (succeeded r); simpl; lia
                | destruct (succeeded r); simpl; lia | |].
    + rewrite filter_cons_True, filter_nil by done.
      destruct (filter _ (tool_usage_log self)) as [|log logs].
      * simpl. f_equal. exact (counts_of_snoc [] entry).
      * rewrite <- app_comm_cons. f_equal.
        by rewrite app_comm_cons, counts_of_snoc.
    + intros other Hother. rewrite !by_tool_get. simpl tool_usage_log.
      unfold per_tool, records_of. rewrite filter_app.
      rewrite filter_cons_False, filter_nil, app_nil_r by congruence. done.
  - intros ->. rewrite app_nil_r. by destruct self.
Qed.

(** * Part VI. The task memory ([src/agent/memory.py]) *)

(** [l[start:]] for a list: a negative [start] counts from the end, and an
    index beyond either end is clipped to it. *)
Definition py_slice_from {A} (start : Z) (l : list A) : list A :=
  let len := Z.of_nat (length l) in
  let first := if start <? 0 then Z.max (start + len) 0
               else Z.min start len in
  drop (Z.to_nat first) l.

Module Memory.

(** [@dataclass class MemoryEntry] *)
Record MemoryEntry : Type := mkEntry {
  timestamp : string;
  task : string;
  status : string;
  result : PyVal;
  error : option string;
  metadata : PyDict.t PyVal
}.

(** [class Memory] *)
Record t : Type := mk { entries : list MemoryEntry }.

(** [Memory.__init__] *)
Definition init : t := mk [].

(** [record]; [now] is what [datetime.now().isoformat()] reads off the
    clock at the call, and [metadata] the keyword arguments. The method
    returns the new entry and appends it to [self.entries]. *)
Definition record (now : string) (self : t) (task status : string)
    (result : PyVal) (error : option string) (metadata : PyDict.t PyVal)
  : MemoryEntry * t :=
  let entry := mkEntry now task status result error metadata in
  (entry, mk (entries self ++ [entry])).

(** [get_all]: a copy of the list. *)
Definition get_all (self : t) : list MemoryEntry := entries self.

(** [filter_by_status] *)
Definition filter_by_status (self : t) (wanted : string) : list MemoryEntry :=
  filter (λ e, status e = wanted) (entries self).

(** [filter_by_task] *)
Definition filter_by_task (self : t) (task_pattern : string)
  : list MemoryEntry :=
  let pattern := PyStr.lower task_pattern in
  filter (λ e, PyStr.contains pattern (PyStr.lower (task e)) = true)
         (entries self).

(** [get_recent]: [self.entries[-n:]], with [n] defaulting to 10. *)
Definition get_recent (self : t) (n : option Z) : list MemoryEntry :=
  py_slice_from (- default 10 n) (entries self).

(** The dictionary returned by [get_summary]. *)
Record Summary : Type := mkSummary {
  total : Z;
  completed : Z;
  failed : Z;
  started : Z
}.

(** [sum(1 for e in self.entries if e.status == wanted)] *)
Definition count_status (self : t) (wanted : string) : Z :=
  py_sum ((λ _, 1) <$> filter (λ e, status e = wanted) (entries self)).

(** [get_summary] *)
Definition get_summary (self : t) : Summary :=
  let total := Z.of_nat (length (entries self)) in
  if total =? 0 then mkSummary 0 0 0 0
  else mkSummary total (count_status self "completed")
                 (count_status self "failed") (count_status self "started").

(** [clear] *)
Definition clear (self : t) : t := mk [].

(** The memory of the module's [__main__] block, with the clock reading
    1, 2, .. at the successive calls. *)
Definition sample : t :=
  let m := init in
  let m := (record "1" m "Research AI trends" "started" PyNone None
                   [("agent", PyString "researcher")]).2 in
  let m := (record "2" m "Research AI trends" "completed"
                   (PyMapping [("sources", PyInt 5); ("insights", PyInt 12)])
                   None [("agent", PyString "researcher")]).2 in
  let m := (record "3" m "Build web scraper" "started" PyNone None
                   [("agent", PyString "developer")]).2 in
  let m := (record "4" m "Build web scraper" "failed" PyNone
                   (Some "Connection timeout")
                   [("agent", PyString "developer")]).2 in
  (record "5" m "Analyze data" "completed"
          (PyMapping [("rows_processed", PyInt 1000)]) None
          [("agent", PyString "analyst")]).2.

End Memory.

(** ** Properties of the memory *)

Lemma count_status_length (self : Memory.t) (wanted : string) :
  Memory.count_status self wanted
  = Z.of_nat (length (Memory.filter_by_status self wanted)).
Proof.
  unfold Memory.count_status, Memory.filter_by_status.
  induction (filter _ (Memory.entries self)) as [|e l IH]; [done|].
  rewrite fmap_cons, py_sum_cons, IH. simpl length. lia.
Qed.

(** X13: [get_recent(n)] is a slice from the end. For a positive [n] it is
    the last [n] entries, or all of them when there are fewer; for [n = 0]
    it is every entry, not none; for a negative [n] it is the entries from
    position [-n] on; without an argument it is [get_recent(10)]. *)
Theorem get_recent_slices (self : Memory.t) (n : Z) :
  let len := Z.of_nat (length (Memory.entries self)) in
  Memory.get_recent self (Some n) `suffix_of` Memory.entries self
  ∧ (0 < n →
     Z.of_nat (length (Memory.get_recent self (Some n))) = Z.min n len)
  ∧ Memory.get_recent self (Some 0) = Memory.entries self
  ∧ (n < 0 →
     Memory.get_recent self (Some n)
     = drop (Z.to_nat (- n)) (Memory.entries self))
  ∧ Memory.get_recent self None = Memory.get_recent self (Some 10).
Proof.
  cbv zeta. unfold Memory.get_recent, py_slice_from. simpl default.
  split_and!.
  - apply suffix_drop.
  - intros Hn. rewrite length_drop.
    destruct (- n <? 0) eqn:Hneg; [|apply Z.ltb_ge in Hneg; lia]. lia.
  - simpl. by rewrite Z.min_l by lia.
  - intros Hn.
    destruct (- n <? 0) eqn:Hneg; [apply Z.ltb_lt in Hneg; lia|].
    destruct (Z.min_spec (- n) (Z.of_nat (length (Memory.entries self))))
      as [[_ ->] | [Hle ->]]; [done|].
    rewrite Nat2Z.id, drop_all, drop_ge; [done | lia].
  - done.
Qed.

Lemma status_cases (e : Memory.MemoryEntry) :
  let one (wanted : string) : Z :=
    if decide (Memory.status e = wanted) then 1 else 0 in
  one "completed" + one "failed" + one "started"
  = if decide (Memory.status e ∈ ["completed"; "failed"; "started"])
    then 1 else 0.
Proof.
  cbv zeta. repeat case_decide; try lia;
    repeat match goal with
    | H : _ ∈ _ :: _ |- _ => apply elem_of_cons in H as [H|H]
    | H : _ ∈ [] |- _ => by apply elem_of_nil in H
    | H : _ ∉ _ |- _ => destruct H; set_solver
    end; congruence.
Qed.

Lemma status_counts_bound (l : list Memory.MemoryEntry) :
  let count (wanted : string) : Z :=
    Z.of_nat (length (filter (λ e, Memory.status e = wanted) l)) in
  count "completed" + count "failed" + count "started" ≤ Z.of_nat (length l)
  ∧ (count "completed" + count "failed" + count "started"
     = Z.of_nat (length l)
     ↔ Forall (λ e, Memory.status e ∈ ["completed"; "failed"; "started"]) l).
Proof.
  cbv zeta. induction l as [|e l [IHle IHiff]].
  - split; [simpl; lia | split; [constructor | done]].
  - rewrite !filter_cons, Forall_cons, <- IHiff.
    pose proof (status_cases e) as He. cbv zeta in He.
    repeat case_decide; simpl length in *;
      (split; [lia | split; [intros ?; split; [done || lia | lia]
                            | intros [? ?]; done || lia]]).
Qed.

(** X14: [get_summary] counts what [filter_by_status] lists: [total] is the
    number of entries and each of [completed], [failed] and [started] is
    the length of the corresponding filtered list. Statuses are free text,
    so the three counters add up to at most [total], and to [total]
    exactly when every entry has one of the three statuses. *)
Theorem get_summary_counts (self : Memory.t) :
  let summary := Memory.get_summary self in
  let by_status wanted :=
    Z.of_nat (length (Memory.filter_by_status self wanted)) in
  Memory.total summary = Z.of_nat (length (Memory.get_all self))
  ∧ Memory.completed summary = by_status "completed"
  ∧ Memory.failed summary = by_status "failed"
  ∧ Memory.started summary = by_status "started"
  ∧ Memory.completed summary + Memory.failed summary + Memory.started summary
    ≤ Memory.total summary
  ∧ (Memory.completed summary + Memory.failed summary
     + Memory.started summary = Memory.total summary
     ↔ Forall (λ e, Memory.status e ∈ ["completed"; "failed"; "started"])
              (Memory.entries self)).
Proof.
  cbv zeta.
  assert (Ht : Memory.total (Memory.get_summary self)
               = Z.of_nat (length (Memory.entries self))).
  { unfold Memory.get_summary.
    destruct (Z.of_nat (length (Memory.entries self)) =? 0) eqn:Hz;
      [apply Z.eqb_eq in Hz; by rewrite Hz | done]. }
  assert (Hcount : ∀ wanted,
    (if Z.of_nat (length (Memory.entries self)) =? 0 then 0
     else Memory.count_status self wanted)
    = Z.of_nat (length (Memory.filter_by_status self wanted))).
  { intros wanted. rewrite <- count_status_length.
    destruct (Z.of_nat (length (Memory.entries self)) =? 0) eqn:Hz; [|done].
    apply Z.eqb_eq in Hz. unfold Memory.count_status.
    destruct (Memory.entries self); [done | simpl in Hz; lia]. }
  assert (Hc : Memory.completed (Memory.get_summary self)
               = Z.of_nat (length (Memory.filter_by_status self "completed"))).
  { rewrite <- Hcount. unfold Memory.get_summary.
    by destruct (Z.of_nat (length (Memory.entries self)) =? 0). }
  assert (Hf : Memory.failed (Memory.get_summary self)
               = Z.of_nat (length (Memory.filter_by_status self "failed"))).
  { rewrite <- Hcount. unfold Memory.get_summary.
    by destruct (Z.of_nat (length (Memory.entries self)) =? 0). }
  assert (Hs : Memory.started (Memory.get_summary self)
               = Z.of_nat (length (Memory.filter_by_status self "started"))).
  { rewrite <- Hcount. unfold Memory.get_summary.
    by destruct (Z.of_nat (length (Memory.entries self)) =? 0). }
  rewrite Ht, Hc, Hf, Hs.
  unfold Memory.get_all, Memory.filter_by_status.
  destruct (status_counts_bound (Memory.entries self)) as [Hle Hiff].
  by split_and!.
Qed.

Lemma py_slice_last {A} (l : list A) (x : A) :
  py_slice_from (-1) (l ++ [x]) = [x].
Proof.
  unfold py_slice_from. rewrite length_app. simpl length.
  change (-1 <? 0) with true. cbv iota.
  replace (Z.to_nat (Z.max (-1 + Z.of_nat (length l + 1)) 0))
    with (length l) by lia.
  apply drop_app_length.
Qed.

(** X15: [record] returns an entry holding the given fields and the clock
    reading, and appends it after the existing entries, which stay as they
    are. Right afterwards the entry is the single result of
    [get_recent(1)], it is the last element of [filter_by_status] for its
    own status while the lists for other statuses are unchanged, and the
    summary's [total] is one higher. *)
Theorem record_appends (now : string) (self : Memory.t)
    (task status : string) (result : PyVal) (error : option string)
    (metadata : PyDict.t PyVal) :
  let entry := (Memory.record now self task status result error metadata).1 in
  let self' := (Memory.record now self task status result error metadata).2 in
  entry = Memory.mkEntry now task status result error metadata
  ∧ Memory.get_all self' = Memory.get_all self ++ [entry]
  ∧ Memory.get_recent self' (Some 1) = [entry]
  ∧ Memory.filter_by_status self' status
    = Memory.filter_by_status self status ++ [entry]
  ∧ (∀ other, other ≠ status →
       Memory.filter_by_status self' other
       = Memory.filter_by_status self other)
  ∧ Memory.total (Memory.get_summary self')
    = Memory.total (Memory.get_summary self) + 1.
Proof.
  cbv zeta. unfold Memory.record. simpl fst. simpl snd.
  set (entry := Memory.mkEntry now task status result error metadata).
  split_and!; [done | done | | | |].
  - apply py_slice_last.
  - unfold Memory.filter_by_status. simpl. rewrite filter_app.
    by rewrite filter_cons_True, filter_nil.
  - intros other Hother. unfold Memory.filter_by_status. simpl.
    rewrite filter_app, filter_cons_False, filter_nil, app_nil_r; [done|].
    simpl. congruence.
  - unfold Memory.get_summary. simpl. rewrite length_app. simpl length.
    destruct (Z.of_nat (length (Memory.entries self) + 1) =? 0) eqn:Hz;
      [apply Z.eqb_eq in Hz; lia|].
    destruct (Z.of_nat (length (Memory.entries self)) =? 0) eqn:Hz';
      [apply Z.eqb_eq in Hz'|]; simpl; lia.
Qed.

(** X16: [filter_by_task] keeps, in order, the entries whose lower-cased
    task contains the lower-cased pattern. Lower-casing the pattern
    beforehand changes nothing; the empty pattern keeps every entry; and a
    pattern whose lower-cased form contains the lower-cased form of another
    pattern keeps a sub-list of what the other keeps. *)
Theorem filter_by_task_pattern (self : Memory.t) (pattern longer : string) :
  (∀ e, e ∈ Memory.filter_by_task self pattern
        ↔ e ∈ Memory.entries self
          ∧ PyStr.substring_of (PyStr.lower pattern)
                               (PyStr.lower (Memory.task e)))
  ∧ Memory.filter_by_task self pattern `sublist_of` Memory.entries self
  ∧ Memory.filter_by_task self (PyStr.lower pattern)
    = Memory.filter_by_task self pattern
  ∧ Memory.filter_by_task self "" = Memory.entries self
  ∧ (PyStr.substring_of (PyStr.lower pattern) (PyStr.lower longer) →
     Memory.filter_by_task self longer
     `sublist_of` Memory.filter_by_task self pattern).
Proof.
  unfold Memory.filter_by_task. split_and!.
  - intros e. rewrite list_elem_of_filter, PyStrFacts.contains_spec. tauto.
  - apply sublist_filter.
  - by rewrite lower_idemp.
  - induction (Memory.entries self) as [|e l IH]; [done|].
    rewrite filter_cons_True by apply PyStrFacts.contains_empty.
    by rewrite IH.
  - intros Hsub.
    rewrite <- (list_filter_filter_l
                  (λ e, PyStr.contains (PyStr.lower longer)
                                       (PyStr.lower (Memory.task e)) = true)
                  (λ e, PyStr.contains (PyStr.lower pattern)
                                       (PyStr.lower (Memory.task e)) = true)).
    + apply sublist_filter.
    + intros e. rewrite !PyStrFacts.contains_spec.
      by apply substring_of_trans.
Qed.

(** * Part VII. The task planner ([src/agent/planner.py]) *)

Module TaskPlanner.

(** [class TaskPlanner] *)
Record t : Type := mk { task_templates : PyDict.t (list string) }.

(** [TaskPlanner.__init__] *)
Definition init : t :=
  mk [ ("research",
        ["Gather information"; "Review sources"; "Summarize findings"]);
       ("project",
        ["Define requirements"; "Plan approach"; "Execute"; "Review"]);
       ("learning",
        ["Identify topics"; "Study materials"; "Practice"; "Test knowledge"]);
       ("default",
        ["Analyze goal"; "Break into steps"; "Prioritize"; "Execute"]) ].

(** [any(word in goal_lower for word in words)] *)
Fixpoint any_word_in (goal_lower : string) (words : list string) : bool :=
  match words with
  | [] => false
  | word :: rest =>
      if PyStr.contains word goal_lower then true
      else any_word_in goal_lower rest
  end.

(** [plan]: the [if]/[elif] chain picks a template, where
    [self.task_templates[key]] raises [KeyError] on a missing key; the
    tasks are [f"{task}: {goal}"] for the tasks of the template. *)
Definition plan (self : t) (goal : string) : result (list string) :=
  let goal_lower := PyStr.lower goal in
  let template :=
    if any_word_in goal_lower ["research"; "investigate"; "study"]
    then getitem "research" (task_templates self)
    else if any_word_in goal_lower ["build"; "create"; "develop"; "project"]
    then getitem "project" (task_templates self)
    else if any_word_in goal_lower ["learn"; "understand"; "master"]
    then getitem "learning" (task_templates self)
    else getitem "default" (task_templates self) in
  match template with
  | Returns template =>
      Returns ((λ task, task +:+ ": " +:+ goal) <$> template)
  | Raises e => Raises e
  end.

(** The key of the template that the chain of [plan] looks up. *)
Definition template_key (goal_lower : string) : string :=
  if any_word_in goal_lower ["research"; "investigate"; "study"]
  then "research"
  else if any_word_in goal_lower ["build"; "create"; "develop"; "project"]
  then "project"
  else if any_word_in goal_lower ["learn"; "understand"; "master"]
  then "learning"
  else "default".

(** [add_template] *)
Definition add_template (self : t) (name : string) (tasks : list string) : t :=
  mk (PyDict.setitem name tasks (task_templates self)).

(** The planner after a series of [add_template] calls on a fresh one. *)
Definition planner_of (added : list (string * list string)) : t :=
  foldl (λ p nt, add_template p nt.1 nt.2) init added.

(** The names of the four built-in templates. *)
Definition builtin_names : list string :=
  ["research"; "project"; "learning"; "default"].

End TaskPlanner.

(** ** Properties of the planner *)

Lemma template_key_builtin (goal_lower : string) :
  TaskPlanner.template_key goal_lower ∈ TaskPlanner.builtin_names.
Proof.
  unfold TaskPlanner.template_key, TaskPlanner.builtin_names.
  repeat match goal with
         | |- context [if ?b then _ else _] => destruct b
         end; set_solver.
Qed.

Lemma plan_eq (self : TaskPlanner.t) (goal : string) :
  TaskPlanner.plan self goal
  = match getitem (TaskPlanner.template_key (PyStr.lower goal))
                  (TaskPlanner.task_templates self) with
    | Returns template =>
        Returns ((λ task, task +:+ ": " +:+ goal) <$> template)
    | Raises e => Raises e
    end.
Proof.
  unfold TaskPlanner.plan, TaskPlanner.template_key.
  repeat match goal with
         | |- context [if ?b then _ else _] => destruct b
         end; done.
Qed.

Lemma planner_of_snoc (added : list (string * list string)) (name : string)
    (tasks : list string) :
  TaskPlanner.planner_of (added ++ [(name, tasks)])
  = TaskPlanner.add_template (TaskPlanner.planner_of added) name tasks.
Proof. unfold TaskPlanner.planner_of. by rewrite foldl_snoc. Qed.

Lemma planner_of_builtin (added : list (string * list string)) (key : string) :
  key ∈ TaskPlanner.builtin_names →
  is_Some (PyDict.get key (TaskPlanner.task_templates
                             (TaskPlanner.planner_of added))).
Proof.
  intros Hkey. induction added as [|[name tasks] added IH] using rev_ind.
  - unfold TaskPlanner.builtin_names in Hkey.
    repeat (apply elem_of_cons in Hkey as [->|Hkey]; [by eexists|]).
    by apply elem_of_nil in Hkey.
  - rewrite planner_of_snoc. unfold TaskPlanner.add_template; simpl.
    rewrite PyDictFacts.get_setitem. by case_decide.
Qed.

(** X17: on a planner built from a fresh one by any calls of
    [add_template], [plan] never raises [KeyError]: it returns the tasks of
    one of the four templates [research], [project], [learning] and
    [default], each followed by a colon, a space and the goal as given;
    so the plan has as many tasks as that template. *)
Theorem plan_returns (added : list (string * list string)) (goal : string) :
  let planner := TaskPlanner.planner_of added in
  ∃ key template,
    key ∈ TaskPlanner.builtin_names
    ∧ PyDict.get key (TaskPlanner.task_templates planner) = Some template
    ∧ TaskPlanner.plan planner goal
      = Returns ((λ task, task +:+ ": " +:+ goal) <$> template)
    ∧ ∀ tasks, TaskPlanner.plan planner goal = Returns tasks →
               length tasks = length template.
Proof.
  cbv zeta. set (key := TaskPlanner.template_key (PyStr.lower goal)).
  pose proof (template_key_builtin (PyStr.lower goal)) as Hkey.
  destruct (planner_of_builtin added key Hkey) as [template Hget].
  exists key, template. rewrite plan_eq. unfold getitem. fold key.
  rewrite Hget. split_and!; [done | done | done |].
  intros tasks [= <-]. by rewrite length_fmap.
Qed.

Lemma any_word_in_spec (goal_lower : string) (words : list string) :
  TaskPlanner.any_word_in goal_lower words = true
  ↔ Exists (λ word, PyStr.substring_of word goal_lower) words.
Proof.
  induction words as [|word words IH]; simpl.
  - split; [done | by intros ?%Exists_nil].
  - rewrite Exists_cons, <- IH, <- PyStrFacts.contains_spec.
    destruct (PyStr.contains word goal_lower); intuition congruence.
Qed.

(** X18: a template added under a name other than the four built-in ones
    is never used: after [add_template(name, tasks)] with such a name,
    [plan] answers every goal as it did before. *)
Theorem add_template_other_name (self : TaskPlanner.t) (name : string)
    (tasks : list string) (goal : string) :
  name ∉ TaskPlanner.builtin_names →
  TaskPlanner.plan (TaskPlanner.add_template self name tasks) goal
  = TaskPlanner.plan self goal.
Proof.
  intros Hname. rewrite !plan_eq. unfold getitem, TaskPlanner.add_template.
  simpl. rewrite PyDictFacts.get_setitem, decide_False; [done|].
  intros ->. apply Hname, template_key_builtin.
Qed.

Lemma add_template_other_name_witness :
  ("writing" ∉ TaskPlanner.builtin_names)
  ∧ TaskPlanner.plan
      (TaskPlanner.add_template TaskPlanner.init "writing"
         ["Outline"; "Draft"; "Edit"; "Publish"])
      "Write a blog post"
    = TaskPlanner.plan TaskPlanner.init "Write a blog post".
Proof.
  assert (Hname : "writing" ∉ TaskPlanner.builtin_names).
  { apply (bool_decide_unpack _). vm_compute. exact I. }
  split; [exact Hname|].
  exact (add_template_other_name TaskPlanner.init "writing"
           ["Outline"; "Draft"; "Edit"; "Publish"] "Write a blog post" Hname).
Defined.

(** X19: the research words come first and are matched without regard to
    case: when the lower-cased goal contains [research], [investigate] or
    [study], [plan] uses the template stored under [research], whatever
    other words the goal contains: the three built-in research tasks on a
    fresh planner, and the tasks given to [add_template('research', ..)]
    after such a call. The goal is appended as it was given. *)
Theorem plan_research_first (goal : string) :
  Exists (λ word, PyStr.substring_of word (PyStr.lower goal))
         ["research"; "investigate"; "study"] →
  TaskPlanner.plan TaskPlanner.init goal
  = Returns ["Gather information: " +:+ goal;
             "Review sources: " +:+ goal;
             "Summarize findings: " +:+ goal]
  ∧ ∀ self tasks,
      TaskPlanner.plan (TaskPlanner.add_template self "research" tasks) goal
      = Returns ((λ task, task +:+ ": " +:+ goal) <$> tasks).
Proof.
  intros Hword. apply any_word_in_spec in Hword.
  assert (Hkey : TaskPlanner.template_key (PyStr.lower goal) = "research").
  { unfold TaskPlanner.template_key. by rewrite Hword. }
  split.
  - rewrite plan_eq, Hkey. reflexivity.
  - intros self tasks. rewrite plan_eq, Hkey.
    unfold getitem, TaskPlanner.add_template. simpl.
    by rewrite PyDictFacts.get_setitem, decide_True.
Qed.

Lemma plan_research_first_witness :
  Exists (λ word, PyStr.substring_of word
                    (PyStr.lower "Build a RESEARCH project"))
         ["research"; "investigate"; "study"]
  ∧ TaskPlanner.plan TaskPlanner.init "Build a RESEARCH project"
    = Returns ["Gather information: Build a RESEARCH project";
               "Review sources: Build a RESEARCH project";
               "Summarize findings: Build a RESEARCH project"].
Proof.
  assert (Hex : Exists (λ word, PyStr.substring_of word
                          (PyStr.lower "Build a RESEARCH project"))
                       ["research"; "investigate"; "study"]).
  { apply Exists_cons_hd. by exists "build a ", " project". }
  split; [exact Hex|].
  exact (proj1 (plan_research_first "Build a RESEARCH project" Hex)).
Defined.

(** X20: a goal that contains none of the ten trigger words, the empty
    goal included, gets the four tasks of the [default] template on a
    fresh planner. *)
Theorem plan_default (goal : string) :
  Forall (λ word, ¬ PyStr.substring_of word (PyStr.lower goal))
         ["research"; "investigate"; "study"; "build"; "create"; "develop";
          "project"; "learn"; "understand"; "master"] →
  TaskPlanner.plan TaskPlanner.init goal
  = Returns ["Analyze goal: " +:+ goal; "Break into steps: " +:+ goal;
             "Prioritize: " +:+ goal; "Execute: " +:+ goal].
Proof.
  intros Hnone.
  assert (Hno : ∀ words,
            words ⊆ ["research"; "investigate"; "study"; "build"; "create";
                     "develop"; "project"; "learn"; "understand"; "master"] →
            TaskPlanner.any_word_in (PyStr.lower goal) words = false).
  { intros words Hsub.
    destruct (TaskPlanner.any_word_in (PyStr.lower goal) words) eqn:Hany;
      [|done].
    apply any_word_in_spec, Exists_exists in Hany as (word & Hin & Hword).
    rewrite Forall_forall in Hnone. destruct (Hnone word); auto. }
  assert (Hkey : TaskPlanner.template_key (PyStr.lower goal) = "default").
  { unfold TaskPlanner.template_key.
    rewrite !Hno by set_solver. done. }
  rewrite plan_eq, Hkey. reflexivity.
Qed.

Lemma plan_default_witness :
  Forall (λ word, ¬ PyStr.substring_of word (PyStr.lower ""))
         ["research"; "investigate"; "study"; "build"; "create"; "develop";
          "project"; "learn"; "understand"; "master"]
  ∧ TaskPlanner.plan TaskPlanner.init ""
    = Returns ["Analyze goal: "; "Break into steps: ";
               "Prioritize: "; "Execute: "].
Proof.
  assert (Hnone : Forall (λ word, ¬ PyStr.substring_of word (PyStr.lower ""))
         ["research"; "investigate"; "study"; "build"; "create"; "develop";
          "project"; "learn"; "understand"; "master"]).
  { apply (bool_decide_unpack _). vm_compute. exact I. }
  split; [exact Hnone|].
  exact (plan_default "" Hnone).
Defined.
